(** * Spend tracker: the client-side aggregation arithmetic

    A shallow embedding of the analytics routines of the spend tracker:

    - [Income.calculateMonthlyAmount]          (src/pages/Income.tsx)
    - [SpendingHabits.analyzeSpendingHabits]   (SpendingHabitsAnalysis component)
    - [MonthlyTrends.loadTrendsData]           (MonthlyTrends component)

    Numbers.  The source computes on JavaScript numbers.  Amounts are
    embedded as exact rationals ([Q]).  Where a divisor of the source can
    be zero on an input the code reaches, the division is written out with
    what JavaScript does there (NaN replaced by [|| 0], a length replaced
    by [|| 1], the text "Infinity"); the other divisions sit behind a guard
    of the source ([amounts.length >= 2], [firstHalfAvg > 0]) and the
    statements below keep to the guarded inputs.  [Math.sqrt] has no
    rational value in general and is embedded as the real square root; the
    quantities that depend on it live in [R].  Rounding of binary64
    arithmetic is outside this model, except for the normalizer, which is
    also given on binary64 numbers to evaluate its examples.

    Dates.  [new Date(s).getDate()], [getMonth()] and [getFullYear()] are
    embedded as projections of a calendar date. *)

From Stdlib Require Import PrimFloat.
From Stdlib Require Import QArith Qround Qabs Qreals.
From Stdlib Require Import ZArith NArith Lia Lra.
From Stdlib Require Import String Ascii DecimalString DecimalN.
From Stdlib Require Import List Permutation Sorted.
From Stdlib Require Import Reals.
Import ListNotations.

Open Scope Q_scope.

(** ** JavaScript built-ins used by the components *)

Module Js.

(** [arr.reduce((sum, x) => sum + f(x), 0)] *)
Definition sumBy {A : Type} (f : A -> Q) (arr : list A) : Q :=
  fold_left (fun sum x => sum + f x) arr 0.

(** [a > b] and [a < b] on numbers. *)
Definition gtb (a b : Q) : bool := negb (Qle_bool a b).
Definition ltb (a b : Q) : bool := negb (Qle_bool b a).

(** [arr.length] as a number. *)
Definition len {A : Type} (arr : list A) : Z := Z.of_nat (length arr).

(** Relative index of [Array.prototype.slice]: a negative index counts from
    the end, and the result is clamped to [0 .. len]. *)
Definition relIndex (len i : Z) : Z :=
  if (i <? 0)%Z then Z.max (len + i) 0 else Z.min i len.

(** [arr.slice(start, end)]; [None] is an omitted [end]. *)
Definition slice {A : Type} (start : Z) (end_ : option Z) (arr : list A) : list A :=
  let k := relIndex (len arr) start in
  let final := match end_ with
               | None => len arr
               | Some e => relIndex (len arr) e
               end in
  firstn (Z.to_nat (final - k)) (skipn (Z.to_nat k) arr).

(** [arr.filter(p).length] *)
Definition countIf {A : Type} (p : A -> bool) (arr : list A) : nat :=
  length (filter p arr).

(** [arr.sort(cmp)]: the sort is stable, and [a] is kept before [b] exactly
    when [cmp a b <= 0].  Insertion from the right keeps equal elements in
    their original order. *)
Fixpoint insertBy {A : Type} (cmp : A -> A -> Q) (x : A) (sorted : list A) : list A :=
  match sorted with
  | [] => [x]
  | y :: rest =>
      if Qle_bool (cmp x y) 0 then x :: y :: rest
      else y :: insertBy cmp x rest
  end.

Definition sort {A : Type} (cmp : A -> A -> Q) (arr : list A) : list A :=
  fold_right (insertBy cmp) [] arr.

(** [s.split(sep)] for a one-character separator: always at least one
    piece, the pieces never contain the separator. *)
Fixpoint split (sep : ascii) (s : string) : list string :=
  match s with
  | EmptyString => [EmptyString]
  | String c rest =>
      if Ascii.eqb c sep then EmptyString :: split sep rest
      else match split sep rest with
           | piece :: pieces => String c piece :: pieces
           | [] => [String c EmptyString]
           end
  end.

(** Decimal digits of a natural number, [0] printed as ["0"]. *)
Definition digits (n : N) : string := NilEmpty.string_of_uint (N.to_uint n).

(** Left-pad with ['0'] up to [width] characters. *)
Fixpoint padZeros (fuel : nat) (width : nat) (s : string) : string :=
  match fuel with
  | O => s
  | S fuel' => if (String.length s <? width)%nat
               then padZeros fuel' width (String "0" s) else s
  end.

(** [x.toFixed(f)] for a finite [x] below 10^21 (Number.prototype.toFixed):
    the sign is split off, [n] is the integer nearest to [|x| * 10^f] (the
    larger one on a tie), printed with at least [f + 1] digits and a point
    before the last [f]. *)
Definition toFixed (f : nat) (x : Q) : string :=
  let sign := if Qlt_le_dec x 0 then "-"%string else ""%string in
  let ax := Qabs x in
  let n := Z.to_N (Qfloor (ax * inject_Z (10 ^ Z.of_nat f) + (1 # 2))) in
  let m := padZeros (S f) (S f) (digits n) in
  let k := (String.length m - f)%nat in
  match f with
  | O => (sign ++ m)%string
  | _ => (sign ++ substring 0 k m ++ "." ++ substring k f m)%string
  end.

End Js.

(** ** Data model: the rows the queries return *)

Module Date.
(** A calendar date, as [expense_date] holds it. *)
Record t := mk { year : Z; month : nat; day : nat }.

(** [date.getDate()] *)
Definition getDate (d : t) : nat := day d.
(** [date.getMonth()], zero-based *)
Definition getMonth (d : t) : nat := (month d - 1)%nat.
(** [date.getFullYear()] *)
Definition getFullYear (d : t) : Z := year d.
End Date.

Module Category.
(** A row of [expense_categories] as selected by the components. *)
Record t := mk { name : string; icon : string; color : string }.
End Category.

Module Expense.
(** A row of [expenses]; [expense_categories] is the joined category,
    absent when the reference does not resolve. *)
Record t := mk {
  name : string;
  amount : Q;
  expense_date : Date.t;
  expense_categories : option Category.t
}.
End Expense.

(** [expense.expense_categories?.name || 'Uncategorized']: a missing
    category and an empty name both fall back. *)
Definition categoryNameOf (expense : Expense.t) : string :=
  match Expense.expense_categories expense with
  | Some c => if String.eqb (Category.name c) "" then "Uncategorized"%string
              else Category.name c
  | None => "Uncategorized"%string
  end.

(** ** [Map<string, V>] with its insertion order *)

Module JsMap.
Section Ops.
Context {V : Type}.

Definition t := list (string * V).

Definition empty : t := [].

Fixpoint get (k : string) (m : t) : option V :=
  match m with
  | [] => None
  | (k', v) :: rest => if String.eqb k k' then Some v else get k rest
  end.

Definition has (k : string) (m : t) : bool :=
  match get k m with Some _ => true | None => false end.

(** [m.set(k, v)]: an existing key keeps its place, a new key goes last. *)
Fixpoint set (k : string) (v : V) (m : t) : t :=
  match m with
  | [] => [(k, v)]
  | (k', v') :: rest =>
      if String.eqb k k' then (k', v) :: rest else (k', v') :: set k v rest
  end.

(** Mutation of the object stored under [k] (the map holds a reference). *)
Definition modify (k : string) (f : V -> V) (m : t) : t :=
  match get k m with
  | Some v => set k (f v) m
  | None => m
  end.

Definition keys (m : t) : list string := map fst m.
Definition values (m : t) : list V := map snd m.
End Ops.
Arguments t : clear implicits.
End JsMap.

(** ** Monthly normalizer (Income page) *)

Module Income.

Definition calculateMonthlyAmount (amount : Q) (frequency : string) : Q :=
  if String.eqb frequency "weekly" then amount * 4.33
  else if String.eqb frequency "biweekly" then amount * 2.17
  else if String.eqb frequency "annual" then amount / 12
  else amount.


(** A row of [income], as far as the total reads it. *)
Record t := mk { amount : Q; frequency : string }.

(** [incomes.reduce((sum, income) => sum + calculateMonthlyAmount(...), 0)] *)
Definition totalMonthlyIncome (incomes : list t) : Q :=
  Js.sumBy (fun income => calculateMonthlyAmount (amount income) (frequency income)) incomes.

End Income.

(** ** Spending habits analysis *)

Module SpendingHabits.

Inductive TimeOfMonth := early | mid | late | consistent.

Module Group.
(** A value of [categoryMap]. *)
Record t := mk { expenses : list Expense.t; category : option Category.t }.
End Group.

Module Pattern.
(** [SpendingPattern], without the fields only the cards draw ([icon],
    [color], [avgPerTransaction], [dayOfWeekPattern]). *)
Record t := mk {
  category : string;
  totalSpent : Q;
  frequency : nat;
  trend : Q;
  timeOfMonthPattern : TimeOfMonth
}.
End Pattern.

Inductive InsightType := warning | info | success.

Module Insight.
(** [SpendingInsight] *)
Record t := mk {
  type : InsightType;
  title : string;
  description : string;
  amount : option Q;
  category : option string
}.
End Insight.

(** [group.expenses.push(expense)] *)
Definition push (expense : Expense.t) (g : Group.t) : Group.t :=
  Group.mk (Group.expenses g ++ [expense]) (Group.category g).

(** One turn of [expenses.forEach]: the running total, and the group of the
    resolved category name, created on its first expense. *)
Definition collect (acc : Q * JsMap.t Group.t) (expense : Expense.t)
  : Q * JsMap.t Group.t :=
  let (total, categoryMap) := acc in
  let categoryName := categoryNameOf expense in
  let categoryMap :=
    if JsMap.has categoryName categoryMap then categoryMap
    else JsMap.set categoryName
           (Group.mk [] (Expense.expense_categories expense)) categoryMap in
  (total + Expense.amount expense,
   JsMap.modify categoryName (push expense) categoryMap).

Definition grouped (expenses : list Expense.t) : Q * JsMap.t Group.t :=
  fold_left collect expenses (0, JsMap.empty).

(** *** Time of month *)

Definition dayOf (exp : Expense.t) : nat := Date.getDate (Expense.expense_date exp).

Definition earlyMonth (categoryExpenses : list Expense.t) : nat :=
  Js.countIf (fun exp => (dayOf exp <=? 10)%nat) categoryExpenses.

Definition midMonth (categoryExpenses : list Expense.t) : nat :=
  Js.countIf (fun exp => let date := dayOf exp in
                         ((10 <? date) && (date <=? 20))%nat%bool)
             categoryExpenses.

Definition lateMonth (categoryExpenses : list Expense.t) : nat :=
  Js.countIf (fun exp => (20 <? dayOf exp)%nat) categoryExpenses.

Definition timeOfMonth (categoryExpenses : list Expense.t) : TimeOfMonth :=
  let e := earlyMonth categoryExpenses in
  let m := midMonth categoryExpenses in
  let l := lateMonth categoryExpenses in
  if ((m <? e) && (l <? e))%nat%bool then early
  else if ((e <? m) && (l <? m))%nat%bool then mid
  else if ((e <? l) && (m <? l))%nat%bool then late
  else consistent.

(** *** Trend.  The query orders by date, newest first: the last
    [halfPoint] rows are the earlier ones. *)

Definition halfPoint (categoryExpenses : list Expense.t) : Z :=
  Qfloor (inject_Z (Js.len categoryExpenses) / 2).

Definition firstHalf (categoryExpenses : list Expense.t) : list Expense.t :=
  Js.slice (- halfPoint categoryExpenses) None categoryExpenses.

Definition secondHalf (categoryExpenses : list Expense.t) : list Expense.t :=
  Js.slice 0 (Some (Js.len categoryExpenses - halfPoint categoryExpenses)%Z)
           categoryExpenses.

(** [half.reduce(...) / half.length || 0].  A zero length only divides the
    empty sum, 0 / 0, which is NaN and replaced by 0; a zero quotient is
    replaced by 0 as well. *)
Definition halfAvg (half : list Expense.t) : Q :=
  if (Js.len half =? 0)%Z then 0
  else Js.sumBy Expense.amount half / inject_Z (Js.len half).

Definition firstHalfAvg (categoryExpenses : list Expense.t) : Q :=
  halfAvg (firstHalf categoryExpenses).

Definition secondHalfAvg (categoryExpenses : list Expense.t) : Q :=
  halfAvg (secondHalf categoryExpenses).

Definition trendOf (categoryExpenses : list Expense.t) : Q :=
  if Js.gtb (firstHalfAvg categoryExpenses) 0
  then ((secondHalfAvg categoryExpenses - firstHalfAvg categoryExpenses)
        / firstHalfAvg categoryExpenses) * 100
  else 0.

(** *** Insights *)

(** [((totalCategorySpent / total) * 100).toFixed(1)] where it is printed,
    that is for [totalCategorySpent > total * 0.3]: a zero [total] makes the
    quotient [Infinity]. *)
Definition shareText (totalCategorySpent total : Q) : string :=
  if Qeq_bool total 0 then "Infinity"%string
  else Js.toFixed 1 ((totalCategorySpent / total) * 100).

Definition highSpending (categoryName : string) (totalCategorySpent total : Q)
  : Insight.t :=
  Insight.mk warning
    ("High " ++ categoryName ++ " Spending")
    (categoryName ++ " accounts for " ++ shareText totalCategorySpent total
       ++ "% of your total spending.")
    (Some totalCategorySpent)
    (Some categoryName).

Definition increasingSpending (categoryName : string) (trend : Q) : Insight.t :=
  Insight.mk warning
    ("Increasing " ++ categoryName ++ " Spending")
    ("Your " ++ categoryName ++ " spending has increased by "
       ++ Js.toFixed 1 trend ++ "% recently.")
    None
    (Some categoryName).

Definition reducedSpending (categoryName : string) (trend : Q) : Insight.t :=
  Insight.mk success
    ("Reduced " ++ categoryName ++ " Spending")
    ("Great job! You've reduced " ++ categoryName ++ " spending by "
       ++ Js.toFixed 1 (Qabs trend) ++ "%.")
    None
    (Some categoryName).

Definition dailyAverage (total : Q) : Insight.t :=
  let avgDaily := total / 90 in
  Insight.mk info
    "Daily Spending Average"
    ("You spend an average of $" ++ Js.toFixed 2 avgDaily
       ++ " per day over the last 3 months.")
    (Some avgDaily)
    None.

Definition startTracking : Insight.t :=
  Insight.mk info
    "Start Tracking Your Spending"
    "Add your first expenses to see personalized spending insights and patterns."
    None
    None.

(** The pattern pushed for one category. *)
Definition patternOf (categoryName : string) (g : Group.t) : Pattern.t :=
  let categoryExpenses := Group.expenses g in
  Pattern.mk categoryName
    (Js.sumBy Expense.amount categoryExpenses)
    (length categoryExpenses)
    (trendOf categoryExpenses)
    (timeOfMonth categoryExpenses).

(** The insights pushed for one category, in the order of the pushes. *)
Definition insightsOf (total : Q) (categoryName : string) (g : Group.t)
  : list Insight.t :=
  let categoryExpenses := Group.expenses g in
  let totalCategorySpent := Js.sumBy Expense.amount categoryExpenses in
  let trend := trendOf categoryExpenses in
  (if Js.gtb totalCategorySpent (total * 0.3)
   then [highSpending categoryName totalCategorySpent total] else [])
  ++ (if Js.gtb trend 50 then [increasingSpending categoryName trend]
      else if Js.ltb trend (-20) then [reducedSpending categoryName trend]
      else []).

Definition patternOfEntry (en : string * Group.t) : Pattern.t :=
  patternOf (fst en) (snd en).

Definition insightsOfEntry (total : Q) (en : string * Group.t) : list Insight.t :=
  insightsOf total (fst en) (snd en).

(** One turn of [categoryMap.forEach]. *)
Definition analyze (total : Q) (acc : list Pattern.t * list Insight.t)
  (entry : string * Group.t) : list Pattern.t * list Insight.t :=
  let (analysisPatterns, generatedInsights) := acc in
  let (categoryName, g) := entry in
  (analysisPatterns ++ [patternOf categoryName g],
   generatedInsights ++ insightsOf total categoryName g).

(** What the component holds after a run. *)
Record State := mkState {
  patterns : list Pattern.t;
  insights : list Insight.t;
  totalSpending : Q
}.

Definition initial : State := mkState [] [] 0.

(** [analyzeSpendingHabits], from the rows of a successful query, run on
    the freshly mounted component. *)
Definition analyzeSpendingHabits (expenses : list Expense.t) : State :=
  match expenses with
  | [] => mkState (patterns initial) [startTracking] (totalSpending initial)
  | _ :: _ =>
      let (total, categoryMap) := grouped expenses in
      let (analysisPatterns, generatedInsights) :=
        fold_left (analyze total) categoryMap ([], []) in
      let analysisPatterns :=
        Js.sort (fun a b => Pattern.totalSpent b - Pattern.totalSpent a)
                analysisPatterns in
      let generatedInsights :=
        if Js.gtb total 0 then dailyAverage total :: generatedInsights
        else generatedInsights in
      mkState analysisPatterns generatedInsights total
  end.

(** The rows of one category among the rows of the query, in their order. *)
Definition rowsOf (k : string) (expenses : list Expense.t) : list Expense.t :=
  filter (fun e => String.eqb (categoryNameOf e) k) expenses.

End SpendingHabits.

(** The aggregation scenario of the specification: Groceries 100 and 120,
    Gas 50; the query returns the newest row first. *)
Definition scenario : list Expense.t :=
  let groceries := Some (Category.mk "Groceries" "cart" "#10B981") in
  let gas := Some (Category.mk "Gas" "fuel" "#F59E0B") in
  [Expense.mk "market" 120 (Date.mk 2024 3 15) groceries;
   Expense.mk "station" 50 (Date.mk 2024 3 5) gas;
   Expense.mk "market" 100 (Date.mk 2024 3 1) groceries].

(** ** Monthly trends *)

Module MonthlyTrends.

Module MonthAmount.
(** An element of [amounts]: [{ month, amount }]. *)
Record t := mk { month : string; amount : Q }.
End MonthAmount.

Module Series.
(** A value of [billMap] and of [categoryMap]. *)
Record t := mk { amounts : list MonthAmount.t; category : option Category.t }.
End Series.

(** [date.toLocaleDateString('en-US', { month: 'short', year: '2-digit' })] *)
Definition monthShort (m : nat) : string :=
  nth m ["Jan"; "Feb"; "Mar"; "Apr"; "May"; "Jun";
         "Jul"; "Aug"; "Sep"; "Oct"; "Nov"; "Dec"]%string ""%string.

Definition monthLabel (date : Date.t) : string :=
  (monthShort (Date.getMonth date) ++ " "
   ++ Js.padZeros 2 2 (Js.digits (Z.to_N (Date.getFullYear date mod 100))))%string.

(** [amounts.find(a => a.month === monthLabel)], then either the found
    element grows in place or a new element is pushed. *)
Fixpoint addToMonth (label : string) (x : Q) (amounts : list MonthAmount.t)
  : list MonthAmount.t :=
  match amounts with
  | [] => [MonthAmount.mk label x]
  | a :: rest =>
      if String.eqb (MonthAmount.month a) label
      then MonthAmount.mk (MonthAmount.month a) (MonthAmount.amount a + x) :: rest
      else a :: addToMonth label x rest
  end.

(** The update both maps receive for one expense, under their own key. *)
Definition record (key : string) (expense : Expense.t) (m : JsMap.t Series.t)
  : JsMap.t Series.t :=
  let m := if JsMap.has key m then m
           else JsMap.set key (Series.mk [] (Expense.expense_categories expense)) m in
  JsMap.modify key
    (fun s => Series.mk
                (addToMonth (monthLabel (Expense.expense_date expense))
                            (Expense.amount expense) (Series.amounts s))
                (Series.category s))
    m.

(** [`${expense.name}-${categoryName}`] *)
Definition billKey (expense : Expense.t) : string :=
  (Expense.name expense ++ "-" ++ categoryNameOf expense)%string.

(** One turn of [expenses.forEach] on [(billMap, categoryMap)]; the monthly
    totals chart is fed by a third map that nothing here reads. *)
Definition collect (acc : JsMap.t Series.t * JsMap.t Series.t) (expense : Expense.t)
  : JsMap.t Series.t * JsMap.t Series.t :=
  let (billMap, categoryMap) := acc in
  (record (billKey expense) expense billMap,
   record (categoryNameOf expense) expense categoryMap).

Definition grouped (expenses : list Expense.t)
  : JsMap.t Series.t * JsMap.t Series.t :=
  fold_left collect expenses (JsMap.empty, JsMap.empty).

(** *** Statistics of one series *)

Definition total (amounts : list MonthAmount.t) : Q :=
  Js.sumBy MonthAmount.amount amounts.

Definition halfPoint (amounts : list MonthAmount.t) : Z :=
  Qfloor (inject_Z (Js.len amounts) / 2).

Definition firstHalf (amounts : list MonthAmount.t) : list MonthAmount.t :=
  Js.slice 0 (Some (halfPoint amounts)) amounts.

Definition secondHalf (amounts : list MonthAmount.t) : list MonthAmount.t :=
  Js.slice (halfPoint amounts) None amounts.

(** [xs.reduce(...) / xs.length]; the bill branch applies it under
    [amounts.length >= 2] only, where no length is zero. *)
Definition mean (xs : list MonthAmount.t) : Q :=
  total xs / inject_Z (Js.len xs).

(** [xs.reduce(...) / (xs.length || 1)] *)
Definition meanOr1 (xs : list MonthAmount.t) : Q :=
  total xs / inject_Z (if (Js.len xs =? 0)%Z then 1 else Js.len xs).

Definition trendFrom (firstHalfAvg secondHalfAvg : Q) : Q :=
  if Js.gtb firstHalfAvg 0
  then ((secondHalfAvg - firstHalfAvg) / firstHalfAvg) * 100
  else 0.

Definition billTrend (amounts : list MonthAmount.t) : Q :=
  trendFrom (mean (firstHalf amounts)) (mean (secondHalf amounts)).

Definition categoryTrend (amounts : list MonthAmount.t) : Q :=
  trendFrom (meanOr1 (firstHalf amounts)) (meanOr1 (secondHalf amounts)).

Definition avgAmount (amounts : list MonthAmount.t) : Q := mean amounts.

Definition variance (amounts : list MonthAmount.t) : Q :=
  Js.sumBy (fun a => (MonthAmount.amount a - avgAmount amounts) ^ 2) amounts
  / inject_Z (Js.len amounts).

Definition stdDev (amounts : list MonthAmount.t) : R :=
  sqrt (Q2R (variance amounts)).

Definition coefficientOfVariation (amounts : list MonthAmount.t) : R :=
  if Js.gtb (avgAmount amounts) 0
  then (stdDev amounts / Q2R (avgAmount amounts))%R
  else 1%R.

Definition isRecurring (amounts : list MonthAmount.t) : bool :=
  (if Rlt_dec (coefficientOfVariation amounts) 0.3 then true else false)
  && (3 <=? Js.len amounts)%Z.

(** *** Bill trends *)

Module BillTrend.
(** [BillTrend] without [icon], [color] and the sorted chart data; a
    destructured piece that [split] did not produce is [None]. *)
Record t := mk {
  name : option string;
  category : option string;
  trend : Q;
  avgAmount : Q;
  isRecurring : bool;
  variance : R
}.
End BillTrend.

(** The body of [billMap.forEach]: bills seen in one month only are left
    out. *)
Definition billTrendOf (billName : string) (amounts : list MonthAmount.t)
  : option BillTrend.t :=
  if (2 <=? Js.len amounts)%Z then
    let pieces := Js.split "-" billName in
    Some (BillTrend.mk (nth_error pieces 0) (nth_error pieces 1)
            (billTrend amounts) (avgAmount amounts)
            (isRecurring amounts) (coefficientOfVariation amounts))
  else None.

Definition pushBill (billTrendsArray : list BillTrend.t)
  (entry : string * Series.t) : list BillTrend.t :=
  match billTrendOf (fst entry) (Series.amounts (snd entry)) with
  | Some b => billTrendsArray ++ [b]
  | None => billTrendsArray
  end.

(** *** Category trends *)

Module CategoryTrend.
(** [CategoryTrend] without [icon], [color], [avgMonthly] and the sorted
    chart data. *)
Record t := mk { category : string; trend : Q; totalSpent : Q }.
End CategoryTrend.

Definition pushCategory (categoryTrendsArray : list CategoryTrend.t)
  (entry : string * Series.t) : list CategoryTrend.t :=
  let amounts := Series.amounts (snd entry) in
  categoryTrendsArray
    ++ [CategoryTrend.mk (fst entry) (categoryTrend amounts) (total amounts)].

(** Recurring bills first, then by the size of the change. *)
Definition byRelevance (a b : BillTrend.t) : Q :=
  if BillTrend.isRecurring a && negb (BillTrend.isRecurring b) then -1
  else if negb (BillTrend.isRecurring a) && BillTrend.isRecurring b then 1
  else Qabs (BillTrend.trend b) - Qabs (BillTrend.trend a).

Record State := mkState {
  billTrends : list BillTrend.t;
  categoryTrends : list CategoryTrend.t
}.

Definition initial : State := mkState [] [].

(** [loadTrendsData], from the rows of a successful query (oldest first),
    run on the freshly mounted component. *)
Definition loadTrendsData (expenses : list Expense.t) : State :=
  match expenses with
  | [] => initial
  | _ :: _ =>
      let (billMap, categoryMap) := grouped expenses in
      let billTrendsArray := fold_left pushBill billMap [] in
      let categoryTrendsArray := fold_left pushCategory categoryMap [] in
      mkState
        (Js.sort byRelevance billTrendsArray)
        (Js.sort (fun a b => CategoryTrend.totalSpent b - CategoryTrend.totalSpent a)
                 categoryTrendsArray)
  end.

End MonthlyTrends.

(** Two months of a bill whose name has a hyphen, oldest first. *)
Definition wifiBills : list Expense.t :=
  let utilities := Some (Category.mk "Utilities" "bolt" "#3B82F6") in
  [Expense.mk "Wi-Fi" 60 (Date.mk 2024 1 12) utilities;
   Expense.mk "Wi-Fi" 60 (Date.mk 2024 2 12) utilities].

(** ** Further built-ins *)

Module JsText.

(** [n.toString()] for an integer [n]. *)
Definition ofInt (n : Z) : string :=
  if (n <? 0)%Z then ("-" ++ Js.digits (Z.to_N (- n)))%string
  else Js.digits (Z.to_N n).

(** [s.padStart(2, '0')] *)
Definition padStart2 (s : string) : string := Js.padZeros 2 2 s.

(** [Math.min(a, b)] *)
Definition min (a b : Q) : Q := if Qle_bool a b then a else b.

(** No ['-'] among the characters of [s]. *)
Definition hyphenFree (s : string) : Prop :=
  ~ In "-"%char (list_ascii_of_string s).

End JsText.

(** ** Monthly totals of the trends view ([monthlyMap]) *)

Module MonthlyChart.

(** [MonthlyData] without the per-category breakdown object. *)
Record MonthlyData := mkMonth {
  month : string;
  year : Z;
  monthNum : Z;
  total : Q
}.

(** [`${date.getFullYear()}-${(date.getMonth() + 1).toString().padStart(2, '0')}`] *)
Definition monthKey (date : Date.t) : string :=
  (JsText.ofInt (Date.getFullYear date) ++ "-"
   ++ JsText.padStart2 (JsText.ofInt (Z.of_nat (Date.getMonth date) + 1)))%string.

Definition addTotal (x : Q) (monthData : MonthlyData) : MonthlyData :=
  mkMonth (month monthData) (year monthData) (monthNum monthData)
          (total monthData + x).

(** One turn of [expenses.forEach] on [monthlyMap]. *)
Definition collect (monthlyMap : JsMap.t MonthlyData) (expense : Expense.t)
  : JsMap.t MonthlyData :=
  let date := Expense.expense_date expense in
  let key := monthKey date in
  let monthlyMap :=
    if JsMap.has key monthlyMap then monthlyMap
    else JsMap.set key
           (mkMonth (MonthlyTrends.monthLabel date) (Date.getFullYear date)
                    (Z.of_nat (Date.getMonth date) + 1) 0)
           monthlyMap in
  JsMap.modify key (addTotal (Expense.amount expense)) monthlyMap.







End MonthlyChart.

(** ** Dashboard statistics *)

Module Budget.
(** A row of [monthly_budgets] with its joined category. *)
Record t := mk {
  id : string;
  name : string;
  budgeted_amount : Q;
  expense_categories : option Category.t
}.
End Budget.

Module Dashboard.


(** [rows?.reduce((sum, r) => sum + Number(r.x), 0) || 0]: no rows, and a
    zero sum, are 0. *)
Definition sumOrZero {A : Type} (f : A -> Q) (rows : option (list A)) : Q :=
  match rows with
  | Some l => Js.sumBy f l
  | None => 0
  end.

Definition prevMonth (currentMonth : Z) : Z :=
  if (currentMonth =? 1)%Z then 12%Z else (currentMonth - 1)%Z.

Definition prevYear (currentYear currentMonth : Z) : Z :=
  if (currentMonth =? 1)%Z then (currentYear - 1)%Z else currentYear.

(** [`${year}-${month.toString().padStart(2, '0')}-01`] *)
Definition firstOf (year month : Z) : string :=
  (JsText.ofInt year ++ "-" ++ JsText.padStart2 (JsText.ofInt month) ++ "-01")%string.

(** The bounds handed to [.gte] and [.lt] for the current month... *)
Definition currentWindow (currentYear currentMonth : Z) : string * string :=
  (firstOf currentYear currentMonth, firstOf currentYear (currentMonth + 1)).

(** ... and for the month before. *)
Definition previousWindow (currentYear currentMonth : Z) : string * string :=
  (firstOf (prevYear currentYear currentMonth) (prevMonth currentMonth),
   firstOf (prevYear currentYear currentMonth) currentMonth).


Section Load.
(** The store, as the three queries see it: the budgets of a month, and
    the expenses dated within a window; [None] is a failed query. *)
Variable budgetsOf : Z -> Z -> option (list Budget.t).
Variable expensesBetween : string -> string -> option (list Expense.t).

End Load.


End Dashboard.

(** ** Budget flow *)

Module BudgetFlow.

Module Row.
(** An element of [categories]; [icon] and [color] are left out. *)
Record t := mk { name : string; budgeted : Q; spent : Q }.
End Row.

Record BudgetFlowData := mkData {
  totalIncome : Q;
  totalBudgeted : Q;
  totalSpent : Q;
  unallocated : Q;
  remaining : Q;
  categories : list Row.t
}.

Section Load.
(** The expenses booked on a budget, by budget id; [None] is a failed
    query. *)
Variable expensesOf : string -> option (list Expense.t).

Definition rowOf (budget : Budget.t) : Row.t :=
  Row.mk (Budget.name budget) (Budget.budgeted_amount budget)
         (Dashboard.sumOrZero Expense.amount (expensesOf (Budget.id budget))).

Definition orEmpty {A : Type} (rows : option (list A)) : list A :=
  match rows with Some l => l | None => [] end.

Definition loadBudgetFlow (incomeData : option (list Income.t))
  (budgetData : option (list Budget.t)) : BudgetFlowData :=
  let totalIncome :=
    Js.sumBy (fun income =>
                Income.calculateMonthlyAmount (Income.amount income)
                                              (Income.frequency income))
             (orEmpty incomeData) in
  let totalBudgeted := Js.sumBy Budget.budgeted_amount (orEmpty budgetData) in
  let budgetExpenses := map rowOf (orEmpty budgetData) in
  let totalSpent := Js.sumBy Row.spent budgetExpenses in
  mkData totalIncome totalBudgeted totalSpent
         (totalIncome - totalBudgeted) (totalBudgeted - totalSpent)
         budgetExpenses.
End Load.

Definition budgetUtilization (data : BudgetFlowData) : Q :=
  if Js.gtb (totalBudgeted data) 0
  then (totalSpent data / totalBudgeted data) * 100 else 0.

Definition incomeUtilization (data : BudgetFlowData) : Q :=
  if Js.gtb (totalIncome data) 0
  then (totalBudgeted data / totalIncome data) * 100 else 0.

(** Per category: the share used, and the "Over" badge. *)
Definition percentage (category : Row.t) : Q :=
  if Js.gtb (Row.budgeted category) 0
  then (Row.spent category / Row.budgeted category) * 100 else 0.

Definition isOverBudget (category : Row.t) : bool :=
  Js.gtb (percentage category) 100.

(** [Math.min(percentage, 100)], the length of the bar. *)
Definition barValue (category : Row.t) : Q := JsText.min (percentage category) 100.

End BudgetFlow.

(** ** Local sign-in and the password dialog *)

Module LocalStorage.

Definition t := JsMap.t string.

Definition getItem (k : string) (s : t) : option string := JsMap.get k s.

Definition setItem (k v : string) (s : t) : t := JsMap.set k v s.

Fixpoint removeItem (k : string) (s : t) : t :=
  match s with
  | [] => []
  | (k', v) :: rest =>
      if String.eqb k k' then removeItem k rest else (k', v) :: removeItem k rest
  end.

End LocalStorage.

Module Auth.

Definition authKey : string := "calabrese-budget-auth".

(** The provider: its flag, and the storage of the browser. *)
Record State := mkState { isAuthenticated : bool; storage : LocalStorage.t }.

(** [useState(false)] followed by the mount effect. *)
Definition mount (s : LocalStorage.t) : State :=
  mkState
    (match LocalStorage.getItem authKey s with
     | Some authStatus => String.eqb authStatus "authenticated"
     | None => false
     end)
    s.

Definition login (username password : string) (st : State) : bool * State :=
  if (String.eqb username "admin" && String.eqb password "admin")%bool
  then (true, mkState true (LocalStorage.setItem authKey "authenticated" (storage st)))
  else (false, st).

Definition logout (st : State) : State :=
  mkState false (LocalStorage.removeItem authKey (storage st)).

Inductive Action :=
| Login (username password : string)
| Logout
| Reload.

(** A page reload mounts a new provider on the same storage. *)
Definition step (st : State) (a : Action) : State :=
  match a with
  | Login u p => snd (login u p st)
  | Logout => logout st
  | Reload => mount (storage st)
  end.

Definition run (s : LocalStorage.t) (actions : list Action) : State :=
  fold_left step actions (mount s).

End Auth.

Module AccountSettings.

Definition passwordKey : string := "calabrese-budget-password".

Inductive Outcome :=
| Changed
| IncorrectCurrent
| TooShort
| Mismatch.

(** The text [setError] receives. *)
Definition errorText (o : Outcome) : string :=
  match o with
  | Changed => ""
  | IncorrectCurrent => "Current password is incorrect"
  | TooShort => "New password must be at least 4 characters long"
  | Mismatch => "New passwords do not match"
  end.

(** [localStorage.getItem('calabrese-budget-password') || 'admin'] *)
Definition storedPassword (s : LocalStorage.t) : string :=
  match LocalStorage.getItem passwordKey s with
  | Some p => if String.eqb p "" then "admin"%string else p
  | None => "admin"%string
  end.

(** [handlePasswordChange] on the three fields of the dialog; lengths are
    counted in characters of the ASCII range. *)
Definition handlePasswordChange (currentPassword newPassword confirmPassword : string)
  (s : LocalStorage.t) : Outcome * LocalStorage.t :=
  if negb (String.eqb currentPassword (storedPassword s)) then (IncorrectCurrent, s)
  else if (String.length newPassword <? 4)%nat then (TooShort, s)
  else if negb (String.eqb newPassword confirmPassword) then (Mismatch, s)
  else (Changed, LocalStorage.setItem passwordKey newPassword s).

End AccountSettings.

(** ** Rendering of the habits cards *)

Module HabitsView.


End HabitsView.

(** ** The two maps of the trends view, one at a time *)

Module TrendRows.

(** The fold [loadTrendsData] performs on one of its maps, keyed by
    [keyOf]. *)
Definition recorded (keyOf : Expense.t -> string) (expenses : list Expense.t)
  : JsMap.t MonthlyTrends.Series.t :=
  fold_left (fun m e => MonthlyTrends.record (keyOf e) e m) expenses JsMap.empty.

(** The rows filed under one key, in the order of the query. *)
Definition rowsOfKey (keyOf : Expense.t -> string) (k : string)
  (expenses : list Expense.t) : list Expense.t :=
  filter (fun e => String.eqb (keyOf e) k) expenses.

Definition labelOf (e : Expense.t) : string :=
  MonthlyTrends.monthLabel (Expense.expense_date e).

Definition months (s : MonthlyTrends.Series.t) : list string :=
  map MonthlyTrends.MonthAmount.month (MonthlyTrends.Series.amounts s).

(** The rows of one month label among [rows]. *)
Definition monthRows (label : string) (rows : list Expense.t) : list Expense.t :=
  filter (fun e => String.eqb (labelOf e) label) rows.

(** A series read as a map from month label to amount. *)
Definition byMonth (amounts : list MonthlyTrends.MonthAmount.t) : JsMap.t Q :=
  map (fun a => (MonthlyTrends.MonthAmount.month a, MonthlyTrends.MonthAmount.amount a))
      amounts.

(** What a series holds for the rows filed under its key: one entry per
    month label of the rows, each the sum of the rows of that month. *)
Definition holds (rows : list Expense.t) (s : MonthlyTrends.Series.t) : Prop :=
  NoDup (months s)
  /\ MonthlyTrends.total (MonthlyTrends.Series.amounts s)
     == Js.sumBy Expense.amount rows
  /\ forall label,
       match JsMap.get label (byMonth (MonthlyTrends.Series.amounts s)) with
       | Some v => monthRows label rows <> []
                   /\ v == Js.sumBy Expense.amount (monthRows label rows)
       | None => monthRows label rows = []
       end.

End TrendRows.

(** ** The trend of section 4.3, in the words of the specification

    On a series in time order: split at the floor of half the length,
    compare the mean of the earlier part with the mean of the later part;
    0 when the earlier mean is 0 (an empty part has mean 0). *)

Module Spec.

Definition mean (xs : list Q) : Q :=
  match xs with
  | [] => 0
  | _ :: _ => Js.sumBy (fun x => x) xs / inject_Z (Js.len xs)
  end.

Definition earlier (series : list Q) : list Q :=
  firstn (length series / 2) series.

Definition later (series : list Q) : list Q :=
  skipn (length series / 2) series.

Definition trend (series : list Q) : Q :=
  let earlierMean := mean (earlier series) in
  let laterMean := mean (later series) in
  if Qeq_bool earlierMean 0 then 0
  else (laterMean - earlierMean) / earlierMean * 100.

(** Population standard deviation of a series and its coefficient of
    variation, over the reals. *)
Definition sumR (xs : list R) : R := fold_right Rplus 0%R xs.

Definition meanR (xs : list R) : R := (sumR xs / INR (length xs))%R.

Definition populationStdDev (xs : list R) : R :=
  sqrt (sumR (map (fun x => (x - meanR xs) ^ 2)%R xs) / INR (length xs)).

Definition coefficientOfVariation (xs : list R) : R :=
  (populationStdDev xs / meanR xs)%R.

End Spec.

(** * Properties *)

(** ** Sums *)

Section SumBy.
Context {A : Type} (f : A -> Q).

Lemma fold_sum_acc (l : list A) (a : Q) :
  fold_left (fun sum x => sum + f x) l a == a + Js.sumBy f l.
Proof.
  unfold Js.sumBy. revert a.
  induction l as [|x l IH]; intro a; simpl.
  - ring.
  - rewrite (IH (a + f x)), (IH (0 + f x)). ring.
Qed.

Lemma sumBy_nil : Js.sumBy f [] = 0.
Proof. reflexivity. Qed.

Lemma sumBy_cons (x : A) (l : list A) :
  Js.sumBy f (x :: l) == f x + Js.sumBy f l.
Proof.
  unfold Js.sumBy at 1. simpl. rewrite fold_sum_acc. ring.
Qed.

Lemma sumBy_app (l1 l2 : list A) :
  Js.sumBy f (l1 ++ l2) == Js.sumBy f l1 + Js.sumBy f l2.
Proof.
  induction l1 as [|x l1 IH]; simpl.
  - rewrite sumBy_nil. ring.
  - rewrite !sumBy_cons, IH. ring.
Qed.




Lemma sumBy_firstn_skipn (n : nat) (l : list A) :
  Js.sumBy f l == Js.sumBy f (firstn n l) + Js.sumBy f (skipn n l).
Proof.
  rewrite <- sumBy_app, firstn_skipn. reflexivity.
Qed.
End SumBy.

Lemma sumBy_map {A B : Type} (g : A -> B) (f : B -> Q) (l : list A) :
  Js.sumBy f (map g l) = Js.sumBy (fun x => f (g x)) l.
Proof.
  unfold Js.sumBy. generalize 0.
  induction l as [|x l IH]; intro a; simpl; [reflexivity | apply IH].
Qed.


(** ** Comparisons *)

Lemma gtb_true (a b : Q) : Js.gtb a b = true <-> b < a.
Proof.
  unfold Js.gtb. rewrite Bool.negb_true_iff.
  split; intro H.
  - apply Qnot_le_lt. intro Hle. apply Qle_bool_iff in Hle. congruence.
  - destruct (Qle_bool a b) eqn:E; [|reflexivity].
    apply Qle_bool_iff in E. exfalso. exact (Qlt_not_le _ _ H E).
Qed.

Lemma gtb_false (a b : Q) : Js.gtb a b = false <-> a <= b.
Proof.
  unfold Js.gtb. rewrite Bool.negb_false_iff. apply Qle_bool_iff.
Qed.

Lemma ltb_true (a b : Q) : Js.ltb a b = true <-> a < b.
Proof. exact (gtb_true b a). Qed.

Lemma gtb_comp (a a' b b' : Q) : a == a' -> b == b' -> Js.gtb a b = Js.gtb a' b'.
Proof.
  intros Ha Hb.
  destruct (Js.gtb a' b') eqn:E.
  - apply gtb_true. apply gtb_true in E. rewrite Ha, Hb. exact E.
  - apply gtb_false. apply gtb_false in E. rewrite Ha, Hb. exact E.
Qed.

(** ** Monthly normalizer *)



(** The income scenario of the specification: 500 a week is 2165 a month. *)
Example totalMonthlyIncome_weekly_500 :
  Income.totalMonthlyIncome [Income.mk 500 "weekly"] == 2165.
Proof. reflexivity. Qed.

(** ** Time of month *)

Section TimeOfMonth.
Import SpendingHabits.
Variable categoryExpenses : list Expense.t.

Let e := earlyMonth categoryExpenses.
Let m := midMonth categoryExpenses.
Let l := lateMonth categoryExpenses.


End TimeOfMonth.


(** A group with two early and two mid expenses is [consistent]; a third
    early one makes it [early]. *)
Example timeOfMonth_tie :
  let on dd := Expense.mk "x" 1 (Date.mk 2024 3 dd) None in
  SpendingHabits.timeOfMonth [on 2; on 12; on 9; on 20]%nat = SpendingHabits.consistent
  /\ SpendingHabits.timeOfMonth [on 2; on 12; on 9; on 20; on 10]%nat
     = SpendingHabits.early.
Proof. split; reflexivity. Qed.

(** ** Slices *)

Section Slice.
Context {A : Type}.
Implicit Types (l : list A) (k h : nat).

Lemma slice_prefix l k :
  (k <= length l)%nat -> Js.slice 0 (Some (Z.of_nat k)) l = firstn k l.
Proof.
  intro Hk. unfold Js.slice, Js.relIndex, Js.len. simpl.
  destruct (Z.ltb_spec (Z.of_nat k) 0); [lia|].
  rewrite Z.min_l by lia. rewrite Z.min_l by lia.
  simpl. rewrite Z.sub_0_r, Nat2Z.id. reflexivity.
Qed.

Lemma slice_suffix l k :
  (k <= length l)%nat -> Js.slice (Z.of_nat k) None l = skipn k l.
Proof.
  intro Hk. unfold Js.slice, Js.relIndex, Js.len.
  destruct (Z.ltb_spec (Z.of_nat k) 0); [lia|].
  rewrite Z.min_l by lia. rewrite Nat2Z.id.
  apply firstn_all2. rewrite length_skipn. lia.
Qed.

(** A negative start counts from the end... *)
Lemma slice_last l h :
  (0 < h <= length l)%nat ->
  Js.slice (- Z.of_nat h) None l = skipn (length l - h) l.
Proof.
  intro Hh. unfold Js.slice, Js.relIndex, Js.len.
  destruct (Z.ltb_spec (- Z.of_nat h) 0); [|lia].
  rewrite Z.max_l by lia.
  replace (Z.to_nat (Z.of_nat (length l) + - Z.of_nat h))
    with (length l - h)%nat by lia.
  apply firstn_all2. rewrite length_skipn. lia.
Qed.

(** ... but [-0] is [0], and [slice(-0)] is the whole array. *)
Lemma slice_minus_zero l : Js.slice (- 0) None l = l.
Proof.
  unfold Js.slice, Js.relIndex, Js.len. simpl.
  rewrite Z.min_l by lia. simpl. rewrite Z.sub_0_r, Nat2Z.id.
  apply firstn_all.
Qed.

Lemma floor_half l :
  Qfloor (inject_Z (Js.len l) / 2) = Z.of_nat (length l / 2).
Proof.
  unfold Js.len. change 2 with (inject_Z 2).
  rewrite <- Zdiv_Qdiv. change 2%Z with (Z.of_nat 2).
  symmetry. apply Nat2Z.inj_div.
Qed.


End Slice.

(** ** Trend *)

Lemma half_le (n : nat) : (n / 2 <= n)%nat.
Proof. apply Nat.Div0.div_le_upper_bound. lia. Qed.

Lemma half_pos (n : nat) : (2 <= n)%nat -> (0 < n / 2)%nat.
Proof.
  intro H. apply Nat.div_str_pos. lia.
Qed.

Lemma len_pos_inject {A : Type} (l : list A) :
  l <> [] -> 0 < inject_Z (Js.len l).
Proof.
  intro H. unfold Js.len.
  change 0 with (inject_Z 0). rewrite <- Zlt_Qlt.
  destruct l; [congruence | simpl; lia].
Qed.





Section HabitsTrend.
Import SpendingHabits.
Variable categoryExpenses : list Expense.t.
Let n := length categoryExpenses.

Lemma halfPoint_nat : halfPoint categoryExpenses = Z.of_nat (n / 2).
Proof. apply floor_half. Qed.

(** With two rows or more the halves are the oldest [n / 2] rows and the
    newest [n - n / 2] rows. *)
Lemma firstHalf_oldest :
  (2 <= n)%nat -> firstHalf categoryExpenses = skipn (n - n / 2) categoryExpenses.
Proof.
  intro H. unfold firstHalf. rewrite halfPoint_nat.
  apply slice_last. split; [apply half_pos; exact H | apply half_le].
Qed.

Lemma secondHalf_newest :
  secondHalf categoryExpenses = firstn (n - n / 2) categoryExpenses.
Proof.
  unfold secondHalf. rewrite halfPoint_nat.
  replace (Js.len categoryExpenses - Z.of_nat (n / 2))%Z
    with (Z.of_nat (n - n / 2)).
  - apply slice_prefix. fold n. lia.
  - unfold Js.len. fold n. pose proof (half_le n). lia.
Qed.

(** With a single row both halves are that row. *)
Lemma halves_single :
  n = 1%nat ->
  firstHalf categoryExpenses = categoryExpenses
  /\ secondHalf categoryExpenses = categoryExpenses.
Proof.
  intro H. split.
  - unfold firstHalf. rewrite halfPoint_nat, H. apply slice_minus_zero.
  - rewrite secondHalf_newest, H. simpl. fold n in H.
    destruct categoryExpenses as [|x [|y l]]; try discriminate. reflexivity.
Qed.
End HabitsTrend.




Section MonthlyTrend.
Import MonthlyTrends.
Variable amounts : list MonthAmount.t.
Let n := length amounts.

Lemma firstHalf_nat : firstHalf amounts = firstn (n / 2) amounts.
Proof.
  unfold firstHalf, halfPoint. rewrite floor_half.
  apply slice_prefix. apply half_le.
Qed.

Lemma secondHalf_nat : secondHalf amounts = skipn (n / 2) amounts.
Proof.
  unfold secondHalf, halfPoint. rewrite floor_half.
  apply slice_suffix. apply half_le.
Qed.

End MonthlyTrend.








(** The guard of the code is [firstHalfAvg > 0]: an earlier mean below 0,
    which amounts of the data model cannot produce, reads 0 as well, where
    the quotient would be -150. *)
Example trend_negative_earlier_mean :
  let on a := Expense.mk "refund" a (Date.mk 2024 3 1) None in
  SpendingHabits.trendOf [on 50; on (-100)] == 0
  /\ Spec.trend [-100; 50] == -150.
Proof. split; reflexivity. Qed.

(** The trends of the three sites on small series. *)
Example trend_values :
  let on a := Expense.mk "rent" a (Date.mk 2024 3 1) None in
  let mo a := MonthlyTrends.MonthAmount.mk "Jan 24" a in
  SpendingHabits.trendOf [on 120; on 100] == 20
  /\ SpendingHabits.trendOf [on 75] == 0
  /\ MonthlyTrends.categoryTrend [mo 75] == 0
  /\ MonthlyTrends.categoryTrend [mo 100; mo 110; mo 130] == 20
  /\ MonthlyTrends.billTrend [mo 0; mo 50] == 0.
Proof. repeat split. Qed.

(** *** Increase against decrease *)

Lemma trendFrom_opposite (m up down : Q) :
  up - m == m - down ->
  MonthlyTrends.trendFrom m down == - MonthlyTrends.trendFrom m up.
Proof.
  intro H. unfold MonthlyTrends.trendFrom.
  destruct (Js.gtb m 0) eqn:G; [|reflexivity].
  apply gtb_true in G.
  assert (Hm : ~ m == 0) by (intro E; rewrite E in G; discriminate G).
  setoid_replace (down - m) with (- (up - m)) by (rewrite H; ring).
  field. exact Hm.
Qed.

(** Reversing a series, or scaling it the other way round, does not negate
    the trend: doubling from 100 reads +100 %, the way back from 200 to 100
    and halving from 100 to 50 both read -50 %. *)
Lemma trend_reverse_not_opposite :
  let on a := Expense.mk "rent" a (Date.mk 2024 3 1) None in
  let doubled := [on 200; on 100] in
  let halved := [on 50; on 100] in
  SpendingHabits.trendOf doubled == 100
  /\ SpendingHabits.trendOf (rev doubled) == - 50
  /\ SpendingHabits.trendOf halved == - 50
  /\ ~ SpendingHabits.trendOf (rev doubled) == - SpendingHabits.trendOf doubled
  /\ ~ SpendingHabits.trendOf halved == - SpendingHabits.trendOf doubled.
Proof.
  intros on doubled halved.
  repeat split; try reflexivity; intro H; discriminate H.
Qed.

(** C7, amended.  Two series with the same earlier mean, one rising and the
    other falling by the same amount from it, have opposite trends of equal
    size; this holds at each of the three trend computations. *)
Theorem trend_opposite_for_equal_change
  (rising falling : list Expense.t)
  (risingMonths fallingMonths : list MonthlyTrends.MonthAmount.t) :
  SpendingHabits.firstHalfAvg rising == SpendingHabits.firstHalfAvg falling ->
  SpendingHabits.secondHalfAvg rising - SpendingHabits.firstHalfAvg rising
  == SpendingHabits.firstHalfAvg falling - SpendingHabits.secondHalfAvg falling ->
  MonthlyTrends.meanOr1 (MonthlyTrends.firstHalf risingMonths)
  == MonthlyTrends.meanOr1 (MonthlyTrends.firstHalf fallingMonths) ->
  MonthlyTrends.meanOr1 (MonthlyTrends.secondHalf risingMonths)
  - MonthlyTrends.meanOr1 (MonthlyTrends.firstHalf risingMonths)
  == MonthlyTrends.meanOr1 (MonthlyTrends.firstHalf fallingMonths)
     - MonthlyTrends.meanOr1 (MonthlyTrends.secondHalf fallingMonths) ->
  SpendingHabits.trendOf falling == - SpendingHabits.trendOf rising
  /\ Qabs (SpendingHabits.trendOf falling) == Qabs (SpendingHabits.trendOf rising)
  /\ MonthlyTrends.categoryTrend fallingMonths
     == - MonthlyTrends.categoryTrend risingMonths.
Proof.
  intros Hm Hd Hm' Hd'.
  assert (T : SpendingHabits.trendOf falling == - SpendingHabits.trendOf rising).
  { unfold SpendingHabits.trendOf.
    rewrite (gtb_comp _ (SpendingHabits.firstHalfAvg rising) 0 0)
      by (try rewrite Hm; reflexivity).
    destruct (Js.gtb (SpendingHabits.firstHalfAvg rising) 0) eqn:G; [|reflexivity].
    apply gtb_true in G.
    assert (Hne : ~ SpendingHabits.firstHalfAvg rising == 0)
      by (intro E; rewrite E in G; discriminate G).
    setoid_replace (SpendingHabits.secondHalfAvg falling
                    - SpendingHabits.firstHalfAvg falling)
      with (- (SpendingHabits.secondHalfAvg rising
               - SpendingHabits.firstHalfAvg rising))
      by (rewrite Hd; ring).
    rewrite <- Hm. field. exact Hne. }
  split; [exact T|]. split.
  - rewrite T. apply Qabs_opp.
  - unfold MonthlyTrends.categoryTrend.
    set (m := MonthlyTrends.meanOr1 (MonthlyTrends.firstHalf risingMonths)) in *.
    set (m' := MonthlyTrends.meanOr1 (MonthlyTrends.firstHalf fallingMonths)) in *.
    set (u := MonthlyTrends.meanOr1 (MonthlyTrends.secondHalf risingMonths)) in *.
    set (w := MonthlyTrends.meanOr1 (MonthlyTrends.secondHalf fallingMonths)) in *.
    assert (E : MonthlyTrends.trendFrom m' w == MonthlyTrends.trendFrom m w).
    { unfold MonthlyTrends.trendFrom.
      rewrite (gtb_comp m' m 0 0) by (try rewrite Hm'; reflexivity).
      destruct (Js.gtb m 0); [rewrite Hm'|]; reflexivity. }
    rewrite E. apply trendFrom_opposite. rewrite Hd', Hm'. reflexivity.
Qed.

Lemma trend_opposite_for_equal_change_witness :
  let on a := Expense.mk "rent" a (Date.mk 2024 3 1) None in
  let mo a := MonthlyTrends.MonthAmount.mk "Jan 24" a in
  SpendingHabits.trendOf [on 50; on 100] == - SpendingHabits.trendOf [on 150; on 100]
  /\ MonthlyTrends.categoryTrend [mo 100; mo 50]
     == - MonthlyTrends.categoryTrend [mo 100; mo 150].
Proof.
  intros on mo.
  destruct (trend_opposite_for_equal_change
              [on 150; on 100] [on 50; on 100]
              [mo 100; mo 150] [mo 100; mo 50]) as (H1 & _ & H2);
    try reflexivity.
  split; assumption.
Defined.

(** ** Maps *)

Section MapFacts.
Context {V : Type}.
Implicit Types (m : JsMap.t V) (k : string) (v : V).

Lemma get_set k k' v m :
  JsMap.get k (JsMap.set k' v m)
  = if String.eqb k k' then Some v else JsMap.get k m.
Proof.
  induction m as [|[k0 v0] m IH]; simpl.
  - reflexivity.
  - destruct (String.eqb_spec k' k0) as [->|Hk'].
    + simpl. destruct (String.eqb k k0); reflexivity.
    + simpl. rewrite IH.
      destruct (String.eqb_spec k k0) as [->|Hk]; [|reflexivity].
      apply String.eqb_neq in Hk'. rewrite String.eqb_sym, Hk'. reflexivity.
Qed.


Lemma get_None k m : JsMap.get k m = None <-> ~ In k (JsMap.keys m).
Proof.
  induction m as [|[k0 v0] m IH]; simpl; [tauto|].
  destruct (String.eqb_spec k k0) as [->|Hk].
  - split; [discriminate | intro H; exfalso; auto].
  - rewrite IH. split; [intros H [E|E]; [congruence | auto] | auto].
Qed.

Lemma In_get k v m : NoDup (JsMap.keys m) -> In (k, v) m -> JsMap.get k m = Some v.
Proof.
  induction m as [|[k0 v0] m IH]; simpl; [tauto|].
  intros Hnd [E|Hin].
  - inversion E. rewrite String.eqb_refl. reflexivity.
  - inversion Hnd as [|? ? Hnot Hnd']. subst.
    destruct (String.eqb_spec k k0) as [->|Hk].
    + exfalso. apply Hnot. change k0 with (fst (k0, v)).
      apply in_map. exact Hin.
    + apply IH; assumption.
Qed.

Lemma set_absent k v m :
  JsMap.get k m = None -> JsMap.set k v m = m ++ [(k, v)].
Proof.
  induction m as [|[k0 v0] m IH]; simpl; [reflexivity|].
  destruct (String.eqb k k0); [discriminate|].
  intro H. rewrite IH by exact H. reflexivity.
Qed.

Lemma keys_set_present k v v' m :
  JsMap.get k m = Some v -> JsMap.keys (JsMap.set k v' m) = JsMap.keys m.
Proof.
  induction m as [|[k0 v0] m IH]; simpl; [discriminate|].
  destruct (String.eqb k k0); [reflexivity|].
  intro H. simpl. rewrite IH by exact H. reflexivity.
Qed.

Lemma NoDup_keys_set k v m :
  NoDup (JsMap.keys m) -> NoDup (JsMap.keys (JsMap.set k v m)).
Proof.
  intro H. destruct (JsMap.get k m) as [v0|] eqn:E.
  - rewrite (keys_set_present k v0) by exact E. exact H.
  - rewrite set_absent by exact E.
    unfold JsMap.keys. rewrite map_app. simpl.
    apply NoDup_app_remove_l with (l := []). simpl.
    apply Permutation_NoDup with (l := k :: map fst m).
    + apply Permutation_cons_append.
    + constructor; [apply get_None; exact E | exact H].
Qed.

Lemma set_set k v v' m :
  JsMap.set k v' (JsMap.set k v m) = JsMap.set k v' m.
Proof.
  induction m as [|[k0 v0] m IH]; simpl.
  - rewrite String.eqb_refl. reflexivity.
  - destruct (String.eqb k k0) eqn:E; simpl; rewrite E; [reflexivity|].
    rewrite IH. reflexivity.
Qed.

(** [if (!m.has(k)) m.set(k, init)] followed by a mutation of
    [m.get(k)] is one [set]. *)
Lemma modify_after_ensure k (init : V) (f : V -> V) m :
  JsMap.modify k f (if JsMap.has k m then m else JsMap.set k init m)
  = JsMap.set k (f (match JsMap.get k m with Some v => v | None => init end)) m.
Proof.
  unfold JsMap.has, JsMap.modify.
  destruct (JsMap.get k m) as [v|] eqn:E.
  - rewrite E. reflexivity.
  - rewrite get_set, String.eqb_refl. apply set_set.
Qed.

Lemma sumBy_set (W : V -> Q) k v m :
  Js.sumBy (fun en => W (snd en)) (JsMap.set k v m)
  == Js.sumBy (fun en => W (snd en)) m
     - match JsMap.get k m with Some v0 => W v0 | None => 0 end
     + W v.
Proof.
  induction m as [|[k0 v0] m IH]; simpl.
  - rewrite sumBy_cons, sumBy_nil. simpl. ring.
  - destruct (String.eqb k k0).
    + rewrite !sumBy_cons. simpl. ring.
    + rewrite !sumBy_cons, IH. simpl. ring.
Qed.
End MapFacts.

(** ** Sorting *)

Section Sort.
Context {A : Type} (cmp : A -> A -> Q).

Lemma insertBy_perm (x : A) (l : list A) :
  Permutation (Js.insertBy cmp x l) (x :: l).
Proof.
  induction l as [|y l IH]; simpl.
  - apply Permutation_refl.
  - destruct (Qle_bool (cmp x y) 0).
    + apply Permutation_refl.
    + apply perm_trans with (y :: x :: l).
      * apply perm_skip. exact IH.
      * apply perm_swap.
Qed.

Lemma sort_perm (l : list A) : Permutation (Js.sort cmp l) l.
Proof.
  induction l as [|x l IH]; simpl.
  - apply perm_nil.
  - apply perm_trans with (x :: Js.sort cmp l).
    + apply insertBy_perm.
    + apply perm_skip. exact IH.
Qed.

Lemma sort_In (x : A) (l : list A) : In x (Js.sort cmp l) <-> In x l.
Proof.
  split; apply Permutation_in;
    [apply sort_perm | apply Permutation_sym, sort_perm].
Qed.
End Sort.

(** ** Category aggregator *)

Section Grouping.
Import SpendingHabits.

Lemma collect_set (total : Q) (m : JsMap.t Group.t) (expense : Expense.t) :
  collect (total, m) expense
  = (total + Expense.amount expense,
     JsMap.set (categoryNameOf expense)
       (push expense
          (match JsMap.get (categoryNameOf expense) m with
           | Some g => g
           | None => Group.mk [] (Expense.expense_categories expense)
           end))
       m).
Proof.
  unfold collect. f_equal.
  apply (modify_after_ensure (categoryNameOf expense)
           (Group.mk [] (Expense.expense_categories expense))
           (push expense)).
Qed.

Lemma grouped_snoc (expenses : list Expense.t) (expense : Expense.t) :
  grouped (expenses ++ [expense]) = collect (grouped expenses) expense.
Proof. unfold grouped. rewrite fold_left_app. reflexivity. Qed.


Lemma grouped_NoDup (expenses : list Expense.t) :
  NoDup (JsMap.keys (snd (grouped expenses))).
Proof.
  induction expenses as [|e es IH] using rev_ind.
  - constructor.
  - rewrite grouped_snoc. destruct (grouped es) as [t m].
    rewrite collect_set. simpl in *. apply NoDup_keys_set. exact IH.
Qed.

(** Each group holds exactly the rows of its category, in order; a
    category without rows has no group. *)
Lemma grouped_get (expenses : list Expense.t) (k : string) :
  match JsMap.get k (snd (grouped expenses)) with
  | Some g => Group.expenses g = rowsOf k expenses /\ rowsOf k expenses <> []
  | None => rowsOf k expenses = []
  end.
Proof.
  induction expenses as [|e es IH] using rev_ind.
  - reflexivity.
  - rewrite grouped_snoc. destruct (grouped es) as [t m].
    rewrite collect_set. simpl in *.
    rewrite get_set. unfold rowsOf in *. rewrite filter_app. simpl.
    destruct (String.eqb_spec k (categoryNameOf e)) as [->|Hk].
    + rewrite String.eqb_refl.
      destruct (JsMap.get (categoryNameOf e) m) as [g|]; simpl.
      * destruct IH as [IH _]. rewrite IH. split; [reflexivity|].
        intro H. apply app_eq_nil in H. destruct H; discriminate.
      * rewrite IH. split; [reflexivity | discriminate].
    + assert (E : String.eqb (categoryNameOf e) k = false)
        by (apply String.eqb_neq; congruence).
      rewrite E, app_nil_r. exact IH.
Qed.

Lemma grouped_In (expenses : list Expense.t) (k : string) (g : Group.t) :
  In (k, g) (snd (grouped expenses)) ->
  Group.expenses g = rowsOf k expenses /\ rowsOf k expenses <> [].
Proof.
  intro H. apply In_get in H; [|apply grouped_NoDup].
  pose proof (grouped_get expenses k) as G. rewrite H in G. exact G.
Qed.



Lemma analyze_fold (total : Q) (m : JsMap.t Group.t)
  (ps : list Pattern.t) (ins : list Insight.t) :
  fold_left (analyze total) m (ps, ins)
  = (ps ++ map patternOfEntry m, ins ++ flat_map (insightsOfEntry total) m).
Proof.
  revert ps ins. induction m as [|[k g] m IH]; intros ps ins; simpl.
  - rewrite !app_nil_r. reflexivity.
  - rewrite IH, <- !app_assoc. reflexivity.
Qed.

(** The state after a run on at least one row. *)
Lemma analyzeSpendingHabits_unfold (expenses : list Expense.t) :
  expenses <> [] ->
  let total := fst (grouped expenses) in
  let categoryMap := snd (grouped expenses) in
  analyzeSpendingHabits expenses
  = mkState
      (Js.sort (fun a b => Pattern.totalSpent b - Pattern.totalSpent a)
               (map patternOfEntry categoryMap))
      (if Js.gtb total 0
       then dailyAverage total :: flat_map (insightsOfEntry total) categoryMap
       else flat_map (insightsOfEntry total) categoryMap)
      total.
Proof.
  intro H. destruct expenses as [|e es]; [congruence|].
  unfold analyzeSpendingHabits.
  destruct (grouped (e :: es)) as [t m]. simpl.
  rewrite analyze_fold. reflexivity.
Qed.

Lemma patterns_In (expenses : list Expense.t) (p : Pattern.t) :
  In p (patterns (analyzeSpendingHabits expenses)) <->
  exists g, In (Pattern.category p, g) (snd (grouped expenses))
            /\ p = patternOf (Pattern.category p) g.
Proof.
  destruct expenses as [|e es].
  - simpl. split; [tauto | intros (g & [] & _)].
  - rewrite analyzeSpendingHabits_unfold by discriminate. simpl patterns.
    rewrite sort_In, in_map_iff. split.
    + intros ([k g] & <- & Hin). exists g. split; [exact Hin | reflexivity].
    + intros (g & Hin & Hp). exists (Pattern.category p, g).
      split; [symmetry; exact Hp | exact Hin].
Qed.
End Grouping.


Example scenario_totals :
  map (fun p => (SpendingHabits.Pattern.category p,
                 Qred (SpendingHabits.Pattern.totalSpent p)))
      (SpendingHabits.patterns (SpendingHabits.analyzeSpendingHabits scenario))
  = [("Groceries"%string, 220); ("Gas"%string, 50)].
Proof. reflexivity. Qed.

(** ** Insight generator *)

Lemma string_length_append (a b : string) :
  String.length (a ++ b) = (String.length a + String.length b)%nat.
Proof. induction a as [|c a IH]; simpl; [reflexivity | rewrite IH; reflexivity]. Qed.

Lemma append_cancel_r (a b s : string) : (a ++ s = b ++ s)%string -> a = b.
Proof.
  revert b. induction a as [|c a IH]; intros [|c' b] H; simpl in H.
  - reflexivity.
  - apply (f_equal String.length) in H. simpl in H.
    rewrite string_length_append in H. lia.
  - apply (f_equal String.length) in H. simpl in H.
    rewrite string_length_append in H. lia.
  - inversion H. f_equal. apply IH. assumption.
Qed.










(** ** Recurring bills *)

Open Scope R_scope.

Lemma Q2R_inject_Z (z : Z) : Q2R (inject_Z z) = IZR z.
Proof. unfold Q2R. simpl. field. Qed.

Lemma Q2R_len {A : Type} (l : list A) : Q2R (inject_Z (Js.len l)) = INR (length l).
Proof. rewrite Q2R_inject_Z. unfold Js.len. symmetry. apply INR_IZR_INZ. Qed.

Lemma Q2R_sumBy {A : Type} (f : A -> Q) (l : list A) :
  Q2R (Js.sumBy f l) = Spec.sumR (map (fun x => Q2R (f x)) l).
Proof.
  induction l as [|x l IH].
  - simpl. apply RMicromega.Q2R_0.
  - rewrite (Qeq_eqR _ _ (sumBy_cons f x l)), Q2R_plus, IH. reflexivity.
Qed.

Lemma len_nonzero {A : Type} (l : list A) :
  l <> [] -> ~ (inject_Z (Js.len l) == 0)%Q.
Proof.
  intros H E. apply len_pos_inject in H. rewrite E in H. discriminate H.
Qed.

Section Series.
Import MonthlyTrends.
Variable amounts : list MonthAmount.t.
Hypothesis nonempty : amounts <> [].

Let series := map (fun a => Q2R (MonthAmount.amount a)) amounts.

Lemma Q2R_avgAmount : Q2R (avgAmount amounts) = Spec.meanR series.
Proof.
  unfold avgAmount, mean, total, Spec.meanR.
  rewrite Q2R_div by (apply len_nonzero; exact nonempty).
  rewrite Q2R_sumBy, Q2R_len. unfold series.
  rewrite length_map. reflexivity.
Qed.

Lemma Q2R_variance :
  Q2R (variance amounts)
  = Spec.sumR (map (fun x => (x - Spec.meanR series) ^ 2) series)
    / INR (length series).
Proof.
  unfold variance.
  rewrite Q2R_div by (apply len_nonzero; exact nonempty).
  rewrite Q2R_sumBy, Q2R_len. unfold series at 2 3.
  rewrite length_map, map_map. f_equal. f_equal.
  apply map_ext. intro a.
  change ((MonthAmount.amount a - avgAmount amounts) ^ 2)%Q
    with ((MonthAmount.amount a - avgAmount amounts)
          * (MonthAmount.amount a - avgAmount amounts))%Q.
  rewrite Q2R_mult, Q2R_minus, Q2R_avgAmount.
  fold series. ring.
Qed.


Lemma variance_nonneg : 0 <= Q2R (variance amounts).
Proof.
  rewrite Q2R_variance.
  apply Rmult_le_pos.
  - generalize (Spec.meanR series). intro mu.
    generalize series. intro xs.
    induction xs as [|x xs IH]; unfold Spec.sumR in *;
      cbn [map fold_right]; [lra|].
    pose proof (pow2_ge_0 (x - mu)) as Hsq. lra.
  - apply Rlt_le, Rinv_0_lt_compat. unfold series. rewrite length_map.
    apply lt_0_INR. destruct amounts; [congruence | simpl; lia].
Qed.

End Series.

Lemma coefficientOfVariation_guard (amounts : list MonthlyTrends.MonthAmount.t) :
  (MonthlyTrends.avgAmount amounts <= 0)%Q ->
  MonthlyTrends.coefficientOfVariation amounts = 1.
Proof.
  intro H. unfold MonthlyTrends.coefficientOfVariation.
  apply gtb_false in H. rewrite H. reflexivity.
Qed.


(** The test on the square root, decided on rationals. *)
Lemma sqrt_ratio_lt (v a : R) :
  0 <= v -> 0 < a -> (sqrt v / a < 0.3 <-> v < 0.09 * (a * a)).
Proof.
  intros Hv Ha.
  pose proof (sqrt_pos v) as Hs. pose proof (sqrt_sqrt v Hv) as Hss.
  set (s := sqrt v) in *.
  assert (E : s / a < 0.3 <-> s < 0.3 * a).
  { split; intro H.
    - apply (Rmult_lt_compat_r a) in H; [|exact Ha].
      unfold Rdiv in H. rewrite Rmult_assoc, Rinv_l in H by lra. lra.
    - apply (Rmult_lt_reg_r a); [exact Ha|].
      unfold Rdiv. rewrite Rmult_assoc, Rinv_l by lra. lra. }
  rewrite E. split; intro H; nra.
Qed.

Lemma isRecurring_decide (amounts : list MonthlyTrends.MonthAmount.t) :
  amounts <> [] ->
  MonthlyTrends.isRecurring amounts
  = (Js.gtb (MonthlyTrends.avgAmount amounts) 0
     && Js.ltb (MonthlyTrends.variance amounts)
               (0.09 * (MonthlyTrends.avgAmount amounts
                        * MonthlyTrends.avgAmount amounts))%Q
     && (3 <=? Js.len amounts)%Z)%bool.
Proof.
  intro Hne. unfold MonthlyTrends.isRecurring, MonthlyTrends.coefficientOfVariation.
  f_equal.
  destruct (Js.gtb (MonthlyTrends.avgAmount amounts) 0) eqn:G; simpl.
  - apply gtb_true in G. apply Qlt_Rlt in G. rewrite RMicromega.Q2R_0 in G.
    pose proof (sqrt_ratio_lt _ _ (variance_nonneg amounts Hne) G) as S.
    unfold MonthlyTrends.stdDev.
    destruct (Rlt_dec _ 0.3) as [L|L]; symmetry.
    + apply ltb_true. apply Rlt_Qlt.
      rewrite !Q2R_mult. apply S in L.
      replace (Q2R 0.09) with 0.09 by (unfold Q2R; simpl; lra). exact L.
    + apply Bool.not_true_is_false. intro T. apply ltb_true in T.
      apply Qlt_Rlt in T. rewrite !Q2R_mult in T.
      replace (Q2R 0.09) with 0.09 in T by (unfold Q2R; simpl; lra).
      apply L, S. exact T.
  - destruct (Rlt_dec 1 0.3); [lra | reflexivity].
Qed.

Close Scope R_scope.



(** Steady, erratic, and too short. *)
Example isRecurring_values :
  let mo a := MonthlyTrends.MonthAmount.mk "Jan 24" a in
  MonthlyTrends.isRecurring [mo 100; mo 110; mo 90] = true
  /\ MonthlyTrends.isRecurring [mo 100; mo 10; mo 190] = false
  /\ MonthlyTrends.isRecurring [mo 100; mo 100] = false.
Proof.
  intro mo. repeat split; rewrite isRecurring_decide by discriminate; reflexivity.
Qed.

(** C10.  When the mean of a bill's monthly amounts is 0 the coefficient of
    variation is 1, no quotient by the mean is formed, and the bill is not
    recurring, whatever its length and variance. *)
Theorem zero_mean_never_recurring (billName : string)
  (amounts : list MonthlyTrends.MonthAmount.t) (bill : MonthlyTrends.BillTrend.t) :
  MonthlyTrends.billTrendOf billName amounts = Some bill ->
  MonthlyTrends.avgAmount amounts == 0 ->
  MonthlyTrends.coefficientOfVariation amounts = 1%R
  /\ MonthlyTrends.BillTrend.variance bill = 1%R
  /\ MonthlyTrends.isRecurring amounts = false
  /\ MonthlyTrends.BillTrend.isRecurring bill = false.
Proof.
  intros Hb Hz.
  assert (Hcv : MonthlyTrends.coefficientOfVariation amounts = 1%R).
  { apply coefficientOfVariation_guard. rewrite Hz. apply Qle_refl. }
  assert (Hrec : MonthlyTrends.isRecurring amounts = false).
  { unfold MonthlyTrends.isRecurring. rewrite Hcv.
    destruct (Rlt_dec 1 0.3); [lra | reflexivity]. }
  unfold MonthlyTrends.billTrendOf in Hb.
  destruct (2 <=? Js.len amounts)%Z; [|discriminate].
  injection Hb as <-. simpl. auto.
Qed.

Lemma zero_mean_never_recurring_witness :
  let mo label a := MonthlyTrends.MonthAmount.mk label a in
  let amounts := [mo "Jan 24" 0; mo "Feb 24" 0; mo "Mar 24" 0; mo "Apr 24" 0]%string in
  exists bill,
    MonthlyTrends.billTrendOf "Trial-Software" amounts = Some bill
    /\ MonthlyTrends.BillTrend.isRecurring bill = false
    /\ MonthlyTrends.BillTrend.variance bill = 1%R.
Proof.
  intros mo amounts. eexists. split; [reflexivity|].
  destruct (zero_mean_never_recurring "Trial-Software" amounts _ eq_refl)
    as (_ & Hv & _ & Hr).
  - reflexivity.
  - split; assumption.
Defined.

(** ** Bill keys *)

Lemma split_first_no_sep (sep : ascii) (s first : string) :
  nth_error (Js.split sep s) 0 = Some first ->
  ~ In sep (list_ascii_of_string first).
Proof.
  revert first. induction s as [|c s IH]; intros first H; simpl in H.
  - inversion H. simpl. tauto.
  - destruct (Ascii.eqb_spec c sep) as [->|Hc].
    + inversion H. simpl. tauto.
    + destruct (Js.split sep s) as [|piece pieces] eqn:E.
      * inversion H. simpl. intros [E'|[]]. congruence.
      * inversion H. simpl. intros [E'|Hin]; [congruence|].
        exact (IH piece eq_refl Hin).
Qed.

(** Whenever the name of an expense has a hyphen, the name read back from
    its bill key is not that name. *)
Lemma billKey_misparse (e : Expense.t) :
  In "-"%char (list_ascii_of_string (Expense.name e)) ->
  nth_error (Js.split "-" (MonthlyTrends.billKey e)) 0 <> Some (Expense.name e).
Proof.
  intros Hin H. exact (split_first_no_sep _ _ _ H Hin).
Qed.

Lemma pushBill_fold (m : JsMap.t MonthlyTrends.Series.t)
  (acc : list MonthlyTrends.BillTrend.t) (bill : MonthlyTrends.BillTrend.t) :
  In bill (fold_left MonthlyTrends.pushBill m acc) <->
  In bill acc
  \/ exists k s, In (k, s) m
                 /\ MonthlyTrends.billTrendOf k (MonthlyTrends.Series.amounts s)
                    = Some bill.
Proof.
  revert acc. induction m as [|[k s] m IH]; intro acc; simpl.
  - split; [auto | intros [H|(k & s & [] & _)]; exact H].
  - rewrite IH. unfold MonthlyTrends.pushBill. simpl.
    destruct (MonthlyTrends.billTrendOf k (MonthlyTrends.Series.amounts s))
      as [b|] eqn:E.
    + rewrite in_app_iff. simpl. split.
      * intros [[H|[<-|[]]]|(k' & s' & H1 & H2)].
        -- left. exact H.
        -- right. exists k, s. auto.
        -- right. exists k', s'. auto.
      * intros [H|(k' & s' & [H1|H1] & H2)].
        -- left. left. exact H.
        -- inversion H1. subst. left. right. left. congruence.
        -- right. exists k', s'. auto.
    + split.
      * intros [H|(k' & s' & H1 & H2)]; [left; exact H|].
        right. exists k', s'. auto.
      * intros [H|(k' & s' & [H1|H1] & H2)]; [left; exact H | |].
        -- inversion H1. subst. congruence.
        -- right. exists k', s'. auto.
Qed.

(** The bill trends shown are the entries built from the bill map. *)
Lemma billTrends_In (expenses : list Expense.t) (bill : MonthlyTrends.BillTrend.t) :
  In bill (MonthlyTrends.billTrends (MonthlyTrends.loadTrendsData expenses)) <->
  exists k s, In (k, s) (fst (MonthlyTrends.grouped expenses))
              /\ MonthlyTrends.billTrendOf k (MonthlyTrends.Series.amounts s)
                 = Some bill.
Proof.
  destruct expenses as [|e es].
  - simpl. split; [tauto | intros (k & s & [] & _)].
  - unfold MonthlyTrends.loadTrendsData.
    destruct (MonthlyTrends.grouped (e :: es)) as [billMap categoryMap].
    simpl MonthlyTrends.billTrends. rewrite sort_In, pushBill_fold. simpl.
    split; [intros [[]|H]; exact H | auto].
Qed.

(** C9.  There is an expense with a hyphen in its name whose bill trend
    reports another name: two months of "Wi-Fi" in Utilities are keyed
    "Wi-Fi-Utilities", which splits into "Wi", "Fi" and "Utilities", so the
    bill is shown as "Wi" in category "Fi". *)
Theorem bill_name_misparsed :
  exists (e : Expense.t) (bill : MonthlyTrends.BillTrend.t),
    In e wifiBills
    /\ Expense.name e = "Wi-Fi"%string
    /\ In "-"%char (list_ascii_of_string (Expense.name e))
    /\ MonthlyTrends.billKey e = "Wi-Fi-Utilities"%string
    /\ Js.split "-" (MonthlyTrends.billKey e)
       = ["Wi"; "Fi"; "Utilities"]%string
    /\ In bill (MonthlyTrends.billTrends (MonthlyTrends.loadTrendsData wifiBills))
    /\ MonthlyTrends.BillTrend.name bill
       = nth_error (Js.split "-" (MonthlyTrends.billKey e)) 0
    /\ MonthlyTrends.BillTrend.name bill = Some "Wi"%string
    /\ MonthlyTrends.BillTrend.category bill = Some "Fi"%string
    /\ MonthlyTrends.BillTrend.name bill <> Some (Expense.name e).
Proof.
  eexists (Expense.mk "Wi-Fi" 60 (Date.mk 2024 1 12) _). eexists.
  split; [left; reflexivity|].
  split; [reflexivity|].
  split; [simpl; tauto|].
  split; [reflexivity|].
  split; [reflexivity|].
  split.
  - apply billTrends_In. eexists. eexists. split.
    + left. reflexivity.
    + reflexivity.
  - simpl. repeat split. discriminate.
Qed.


(** * Further properties *)

(** ** Sorted output *)

Section SortSorted.
Context {A : Type} (cmp : A -> A -> Q).
Hypothesis cmp_total : forall a b, ~ cmp a b <= 0 -> cmp b a <= 0.
Hypothesis cmp_trans : forall a b c, cmp a b <= 0 -> cmp b c <= 0 -> cmp a c <= 0.

Let before (a b : A) : Prop := cmp a b <= 0.

Lemma insertBy_sorted (x : A) (l : list A) :
  StronglySorted before l -> StronglySorted before (Js.insertBy cmp x l).
Proof.
  induction 1 as [|y rest Hs IH Hy]; simpl.
  - constructor; constructor.
  - destruct (Qle_bool (cmp x y) 0) eqn:E.
    + apply Qle_bool_iff in E.
      constructor; [constructor; assumption|].
      constructor; [exact E|].
      apply Forall_forall. intros z Hz.
      rewrite Forall_forall in Hy. exact (cmp_trans _ _ _ E (Hy z Hz)).
    + constructor; [exact IH|].
      assert (Hyx : before y x).
      { apply cmp_total. intro H. apply Qle_bool_iff in H. congruence. }
      apply Forall_forall. intros z Hz.
      apply (Permutation_in _ (insertBy_perm cmp x rest)) in Hz.
      destruct Hz as [<-|Hz]; [exact Hyx|].
      rewrite Forall_forall in Hy. exact (Hy z Hz).
Qed.

Lemma sort_sorted (l : list A) : StronglySorted before (Js.sort cmp l).
Proof.
  induction l as [|x l IH]; simpl.
  - constructor.
  - apply insertBy_sorted. exact IH.
Qed.
End SortSorted.

Lemma StronglySorted_weaken {A : Type} (R S : A -> A -> Prop) (l : list A) :
  (forall a b, R a b -> S a b) -> StronglySorted R l -> StronglySorted S l.
Proof.
  intros H. induction 1 as [|a l Hs IH Ha]; constructor.
  - exact IH.
  - eapply Forall_impl; [|exact Ha]. intros b. apply H.
Qed.

(** Sorting by a numeric key, largest first. *)
Lemma sort_descending {A : Type} (key : A -> Q) (l : list A) :
  StronglySorted (fun a b => key b <= key a) (Js.sort (fun a b => key b - key a) l).
Proof.
  apply StronglySorted_weaken with (R := fun a b => key b - key a <= 0).
  - intros a b H. apply (Qplus_le_l _ _ (- key a)).
    setoid_replace (key a + - key a) with 0 by ring. exact H.
  - apply (sort_sorted (fun a b => key b - key a)).
    + intros a b H. apply Qnot_le_lt in H.
      apply Qlt_le_weak.
      apply (Qplus_lt_l _ _ (key b - key a)).
      setoid_replace (key a - key b + (key b - key a)) with 0 by ring.
      setoid_replace (0 + (key b - key a)) with (key b - key a) by ring.
      exact H.
    + intros a b c H1 H2.
      setoid_replace (key c - key a) with ((key b - key a) + (key c - key b)) by ring.
      setoid_replace 0 with (0 + 0) by ring.
      apply Qplus_le_compat; assumption.
Qed.

(** The category cards come with the largest total first. *)
Theorem patterns_sorted_by_total (expenses : list Expense.t) :
  StronglySorted
    (fun a b => SpendingHabits.Pattern.totalSpent b <= SpendingHabits.Pattern.totalSpent a)
    (SpendingHabits.patterns (SpendingHabits.analyzeSpendingHabits expenses)).
Proof.
  destruct expenses as [|e es].
  - constructor.
  - rewrite analyzeSpendingHabits_unfold by discriminate.
    simpl SpendingHabits.patterns.
    apply (sort_descending SpendingHabits.Pattern.totalSpent).
Qed.


(** ** The maps of the trends view *)

Section TrendMaps.
Import MonthlyTrends TrendRows.

Lemma byMonth_addToMonth (label : string) (x : Q) (amounts : list MonthAmount.t) :
  byMonth (addToMonth label x amounts)
  = JsMap.set label
      (match JsMap.get label (byMonth amounts) with Some v => v + x | None => x end)
      (byMonth amounts).
Proof.
  induction amounts as [|a rest IH]; simpl.
  - reflexivity.
  - rewrite (String.eqb_sym label). destruct (String.eqb (MonthAmount.month a) label); simpl.
    + reflexivity.
    + rewrite IH. reflexivity.
Qed.

Lemma keys_byMonth (amounts : list MonthAmount.t) :
  JsMap.keys (byMonth amounts) = map MonthAmount.month amounts.
Proof. unfold JsMap.keys, byMonth. rewrite map_map. reflexivity. Qed.

Lemma total_byMonth (amounts : list MonthAmount.t) :
  total amounts = Js.sumBy (fun en => snd en) (byMonth amounts).
Proof. unfold total, byMonth. rewrite sumBy_map. reflexivity. Qed.

Lemma total_addToMonth (label : string) (x : Q) (amounts : list MonthAmount.t) :
  total (addToMonth label x amounts) == total amounts + x.
Proof.
  rewrite !total_byMonth, byMonth_addToMonth.
  rewrite (sumBy_set (fun v => v)).
  destruct (JsMap.get label (byMonth amounts)); ring.
Qed.

Variable keyOf : Expense.t -> string.

Lemma record_set (e : Expense.t) (m : JsMap.t Series.t) :
  record (keyOf e) e m
  = JsMap.set (keyOf e)
      (let s0 := match JsMap.get (keyOf e) m with
                 | Some s => s
                 | None => Series.mk [] (Expense.expense_categories e)
                 end in
       Series.mk (addToMonth (labelOf e) (Expense.amount e) (Series.amounts s0))
                 (Series.category s0))
      m.
Proof.
  unfold record.
  apply (modify_after_ensure (keyOf e)
           (Series.mk [] (Expense.expense_categories e))
           (fun s => Series.mk
                       (addToMonth (monthLabel (Expense.expense_date e))
                                   (Expense.amount e) (Series.amounts s))
                       (Series.category s))).
Qed.

Lemma recorded_snoc (es : list Expense.t) (e : Expense.t) :
  recorded keyOf (es ++ [e]) = record (keyOf e) e (recorded keyOf es).
Proof. unfold recorded. rewrite fold_left_app. reflexivity. Qed.

Lemma recorded_NoDup (es : list Expense.t) :
  NoDup (JsMap.keys (recorded keyOf es)).
Proof.
  induction es as [|e es IH] using rev_ind.
  - constructor.
  - rewrite recorded_snoc, record_set. apply NoDup_keys_set. exact IH.
Qed.

Lemma rowsOfKey_snoc (k : string) (es : list Expense.t) (e : Expense.t) :
  rowsOfKey keyOf k (es ++ [e])
  = rowsOfKey keyOf k es ++ (if String.eqb (keyOf e) k then [e] else []).
Proof. unfold rowsOfKey. rewrite filter_app. reflexivity. Qed.

Lemma monthRows_snoc (label : string) (rows : list Expense.t) (e : Expense.t) :
  monthRows label (rows ++ [e])
  = monthRows label rows ++ (if String.eqb (labelOf e) label then [e] else []).
Proof. unfold monthRows. rewrite filter_app. reflexivity. Qed.

Lemma holds_add (rows : list Expense.t) (s : Series.t) (e : Expense.t)
  (c : option Category.t) :
  holds rows s ->
  holds (rows ++ [e])
        (Series.mk (addToMonth (labelOf e) (Expense.amount e) (Series.amounts s)) c).
Proof.
  intros (Hnd & Htot & Hget). unfold holds, months. simpl. repeat split.
  - rewrite <- keys_byMonth, byMonth_addToMonth.
    apply NoDup_keys_set. rewrite keys_byMonth. exact Hnd.
  - rewrite total_addToMonth, Htot, sumBy_app, sumBy_cons, sumBy_nil. ring.
  - intro label. rewrite byMonth_addToMonth, get_set, monthRows_snoc.
    specialize (Hget label) as Hl.
    destruct (String.eqb_spec label (labelOf e)) as [->|Hne].
    + rewrite String.eqb_refl.
      destruct (JsMap.get (labelOf e) (byMonth (Series.amounts s))) as [v|].
      * destruct Hl as [_ Hv]. split.
        -- intro H. apply app_eq_nil in H. destruct H; discriminate.
        -- rewrite sumBy_app, sumBy_cons, sumBy_nil, Hv. ring.
      * rewrite Hl. split; [discriminate|].
        simpl. rewrite sumBy_cons, sumBy_nil. ring.
    + assert (E : String.eqb (labelOf e) label = false)
        by (apply String.eqb_neq; congruence).
      rewrite E, app_nil_r. exact Hl.
Qed.

Lemma holds_empty (c : option Category.t) : holds [] (Series.mk [] c).
Proof.
  unfold holds, months. simpl.
  split; [constructor|]. split; [reflexivity|]. intro label. reflexivity.
Qed.

Lemma recorded_get (es : list Expense.t) (k : string) :
  match JsMap.get k (recorded keyOf es) with
  | Some s => rowsOfKey keyOf k es <> [] /\ holds (rowsOfKey keyOf k es) s
  | None => rowsOfKey keyOf k es = []
  end.
Proof.
  induction es as [|e es IH] using rev_ind.
  - reflexivity.
  - rewrite recorded_snoc, record_set, get_set, rowsOfKey_snoc.
    destruct (String.eqb_spec k (keyOf e)) as [->|Hk].
    + rewrite String.eqb_refl. split.
      * intro H. apply app_eq_nil in H. destruct H; discriminate.
      * destruct (JsMap.get (keyOf e) (recorded keyOf es)) as [s|]; simpl.
        -- apply holds_add. apply IH.
        -- rewrite IH. apply (holds_add [] (Series.mk [] None)). apply holds_empty.
    + assert (E : String.eqb (keyOf e) k = false)
        by (apply String.eqb_neq; congruence).
      rewrite E, app_nil_r. exact IH.
Qed.

End TrendMaps.

Lemma grouped_recorded (expenses : list Expense.t) :
  MonthlyTrends.grouped expenses
  = (TrendRows.recorded MonthlyTrends.billKey expenses,
     TrendRows.recorded categoryNameOf expenses).
Proof.
  induction expenses as [|e es IH] using rev_ind.
  - reflexivity.
  - unfold MonthlyTrends.grouped in *. rewrite fold_left_app, IH. simpl.
    rewrite !recorded_snoc. reflexivity.
Qed.


Section SeriesFacts.
Import MonthlyTrends TrendRows.
Variable keyOf : Expense.t -> string.
Variable expenses : list Expense.t.
Variables (k : string) (s : Series.t).
Hypothesis filed : In (k, s) (recorded keyOf expenses).

Let rows := rowsOfKey keyOf k expenses.

Lemma filed_holds : rows <> [] /\ holds rows s.
Proof.
  pose proof (recorded_get keyOf expenses k) as G.
  rewrite (In_get _ _ _ (recorded_NoDup keyOf expenses) filed) in G. exact G.
Qed.




Lemma filed_key_row : exists e, In e expenses /\ keyOf e = k.
Proof.
  destruct filed_holds as [Hne _]. unfold rows, rowsOfKey in Hne.
  destruct (filter _ expenses) as [|e l] eqn:E; [congruence|].
  assert (Hin : In e (filter (fun e => String.eqb (keyOf e) k) expenses))
    by (rewrite E; left; reflexivity).
  apply filter_In in Hin. destruct Hin as [Hin Hk].
  exists e. split; [exact Hin | apply String.eqb_eq; exact Hk].
Qed.
End SeriesFacts.



(** ** Category trends *)




(** ** Which bills are listed *)






(** ** Order of the bill list *)

Lemma Qminus_le_0 (x y : Q) : x - y <= 0 <-> x <= y.
Proof.
  split; intro H.
  - apply (Qplus_le_l _ _ (- y)).
    setoid_replace (y + - y) with 0 by ring. exact H.
  - apply (Qplus_le_l _ _ y).
    setoid_replace (x - y + y) with x by ring.
    setoid_replace (0 + y) with y by ring. exact H.
Qed.

Lemma byRelevance_le (a b : MonthlyTrends.BillTrend.t) :
  MonthlyTrends.byRelevance a b <= 0 <->
  (MonthlyTrends.BillTrend.isRecurring a = true
   /\ MonthlyTrends.BillTrend.isRecurring b = false)
  \/ (MonthlyTrends.BillTrend.isRecurring a = MonthlyTrends.BillTrend.isRecurring b
      /\ Qabs (MonthlyTrends.BillTrend.trend b) <= Qabs (MonthlyTrends.BillTrend.trend a)).
Proof.
  unfold MonthlyTrends.byRelevance.
  destruct (MonthlyTrends.BillTrend.isRecurring a),
           (MonthlyTrends.BillTrend.isRecurring b); simpl.
  - rewrite Qminus_le_0. split; [intro H; right; auto | intros [[_ H]|[_ H]]; [discriminate | exact H]].
  - split; [intro H; left; auto | intros _; discriminate].
  - split; [intro H; exfalso; apply H; reflexivity
           | intros [[H _]|[H _]]; discriminate].
  - rewrite Qminus_le_0. split; [intro H; right; auto | intros [[H _]|[_ H]]; [discriminate | exact H]].
Qed.

(** Recurring bills are listed first, and within the recurring and within
    the other bills the larger change, in absolute value, comes first. *)
Theorem bill_trends_recurring_first (expenses : list Expense.t) :
  StronglySorted
    (fun a b =>
       (MonthlyTrends.BillTrend.isRecurring a = true
        /\ MonthlyTrends.BillTrend.isRecurring b = false)
       \/ (MonthlyTrends.BillTrend.isRecurring a = MonthlyTrends.BillTrend.isRecurring b
           /\ Qabs (MonthlyTrends.BillTrend.trend b)
              <= Qabs (MonthlyTrends.BillTrend.trend a)))
    (MonthlyTrends.billTrends (MonthlyTrends.loadTrendsData expenses)).
Proof.
  destruct expenses as [|e es]; [constructor|].
  unfold MonthlyTrends.loadTrendsData.
  destruct (MonthlyTrends.grouped (e :: es)) as [billMap categoryMap].
  simpl MonthlyTrends.billTrends.
  apply StronglySorted_weaken with (R := fun a b => MonthlyTrends.byRelevance a b <= 0).
  - intros a b. apply byRelevance_le.
  - apply sort_sorted.
    + intros a b H. apply byRelevance_le.
      assert (N : ~ ((MonthlyTrends.BillTrend.isRecurring a = true
                      /\ MonthlyTrends.BillTrend.isRecurring b = false)
                     \/ (MonthlyTrends.BillTrend.isRecurring a
                         = MonthlyTrends.BillTrend.isRecurring b
                         /\ Qabs (MonthlyTrends.BillTrend.trend b)
                            <= Qabs (MonthlyTrends.BillTrend.trend a))))
        by (intro C; apply H, byRelevance_le; exact C).
      destruct (MonthlyTrends.BillTrend.isRecurring a),
               (MonthlyTrends.BillTrend.isRecurring b).
      * right. split; [reflexivity|]. apply Qlt_le_weak, Qnot_le_lt.
        intro C. apply N. right. auto.
      * exfalso. apply N. left. auto.
      * left. auto.
      * right. split; [reflexivity|]. apply Qlt_le_weak, Qnot_le_lt.
        intro C. apply N. right. auto.
    + intros a b c H1 H2.
      apply byRelevance_le in H1, H2. apply byRelevance_le.
      destruct H1 as [[A1 B1]|[E1 L1]], H2 as [[A2 B2]|[E2 L2]].
      * congruence.
      * left. split; [exact A1 | congruence].
      * left. split; [congruence | exact B2].
      * right. split; [congruence | eapply Qle_trans; eassumption].
Qed.

(** ** Names read back from bill keys *)

Lemma split_pieces_sep_free (sep : ascii) (s piece : string) :
  In piece (Js.split sep s) -> ~ In sep (list_ascii_of_string piece).
Proof.
  revert piece. induction s as [|c s IH]; intros piece H; simpl in H.
  - destruct H as [<-|[]]. simpl. tauto.
  - destruct (Ascii.eqb_spec c sep) as [->|Hc].
    + destruct H as [<-|H]; [simpl; tauto | apply IH; exact H].
    + destruct (Js.split sep s) as [|p ps] eqn:E.
      * destruct H as [<-|[]]. simpl. intros [E'|[]]. congruence.
      * destruct H as [<-|H].
        -- simpl. intros [E'|Hin]; [congruence|].
           apply (IH p); [left; reflexivity | exact Hin].
        -- apply IH. right. exact H.
Qed.

Lemma split_sep_free (sep : ascii) (s : string) :
  ~ In sep (list_ascii_of_string s) -> Js.split sep s = [s].
Proof.
  induction s as [|c s IH]; simpl; intro H; [reflexivity|].
  destruct (Ascii.eqb_spec c sep) as [->|Hc]; [exfalso; auto|].
  rewrite IH by auto. reflexivity.
Qed.

Lemma split_at_first_sep (sep : ascii) (a b : string) :
  ~ In sep (list_ascii_of_string a) ->
  Js.split sep (a ++ String sep b) = a :: Js.split sep b.
Proof.
  induction a as [|c a IH]; simpl; intro H.
  - rewrite Ascii.eqb_refl. reflexivity.
  - destruct (Ascii.eqb_spec c sep) as [->|Hc]; [exfalso; auto|].
    rewrite IH by auto. reflexivity.
Qed.

Lemma split_nonempty (sep : ascii) (s : string) : Js.split sep s <> [].
Proof.
  destruct s as [|c s]; simpl; [discriminate|].
  destruct (Ascii.eqb c sep); [discriminate|].
  destruct (Js.split sep s); discriminate.
Qed.

Lemma split_second_piece (sep : ascii) (a b : string) :
  exists first second rest,
    Js.split sep (a ++ String sep b) = first :: second :: rest.
Proof.
  induction a as [|c a IH]; simpl.
  - rewrite Ascii.eqb_refl.
    destruct (Js.split sep b) as [|p ps] eqn:E; [exfalso; exact (split_nonempty _ _ E)|].
    exists ""%string, p, ps. reflexivity.
  - destruct IH as (f & s2 & r & ->).
    destruct (Ascii.eqb c sep).
    + exists ""%string, f, (s2 :: r). reflexivity.
    + exists (String c f), s2, r. reflexivity.
Qed.

Lemma billKey_shape (e : Expense.t) :
  MonthlyTrends.billKey e
  = (Expense.name e ++ String "-" (categoryNameOf e))%string.
Proof. reflexivity. Qed.

(** No listed bill carries a hyphen in its name or in its category: both
    are always present, they are the first two pieces of the key of some
    expense of the input, and a piece has no hyphen. *)
Theorem bill_names_never_hyphenated (expenses : list Expense.t)
  (bill : MonthlyTrends.BillTrend.t) :
  In bill (MonthlyTrends.billTrends (MonthlyTrends.loadTrendsData expenses)) ->
  exists name category e,
    MonthlyTrends.BillTrend.name bill = Some name
    /\ MonthlyTrends.BillTrend.category bill = Some category
    /\ JsText.hyphenFree name
    /\ JsText.hyphenFree category
    /\ In e expenses
    /\ nth_error (Js.split "-" (MonthlyTrends.billKey e)) 0 = Some name
    /\ nth_error (Js.split "-" (MonthlyTrends.billKey e)) 1 = Some category.
Proof.
  intro Hb. apply billTrends_In in Hb. destruct Hb as (k & s & Hin & Hb).
  rewrite grouped_recorded in Hin. simpl in Hin.
  destruct (filed_key_row _ _ _ _ Hin) as (e & He & <-).
  unfold MonthlyTrends.billTrendOf in Hb.
  destruct (2 <=? Js.len (MonthlyTrends.Series.amounts s))%Z; [|discriminate].
  injection Hb as <-. simpl.
  destruct (split_second_piece "-" (Expense.name e) (categoryNameOf e))
    as (first & second & rest & Hs).
  rewrite <- billKey_shape in Hs.
  exists first, second, e. rewrite Hs. simpl.
  repeat split; try assumption.
  - apply (split_pieces_sep_free "-" (MonthlyTrends.billKey e)).
    rewrite Hs. left. reflexivity.
  - apply (split_pieces_sep_free "-" (MonthlyTrends.billKey e)).
    rewrite Hs. right. left. reflexivity.
Qed.

Lemma bill_names_never_hyphenated_witness :
  exists name category,
    nth_error (Js.split "-" "Wi-Fi-Utilities") 0 = Some name
    /\ JsText.hyphenFree name /\ JsText.hyphenFree category.
Proof.
  pose (amounts := [MonthlyTrends.MonthAmount.mk "Jan 24" 60;
                    MonthlyTrends.MonthAmount.mk "Feb 24" 60]).
  assert (Hin : In (MonthlyTrends.BillTrend.mk (Some "Wi"%string) (Some "Fi"%string)
                      (MonthlyTrends.billTrend amounts)
                      (MonthlyTrends.avgAmount amounts)
                      (MonthlyTrends.isRecurring amounts)
                      (MonthlyTrends.coefficientOfVariation amounts))
                   (MonthlyTrends.billTrends (MonthlyTrends.loadTrendsData wifiBills))).
  { apply billTrends_In. eexists. eexists. split; [left; reflexivity | reflexivity]. }
  destruct (bill_names_never_hyphenated wifiBills _ Hin)
    as (name & category & e & Hn & Hc & Fn & Fc & He & K0 & K1).
  exists name, category.
  destruct He as [<-|[<-|[]]]; simpl in K0; repeat split; assumption.
Defined.

Lemma append_cancel_l (p a b : string) : (p ++ a = p ++ b)%string -> a = b.
Proof.
  induction p as [|c p IH]; simpl; intro H; [exact H|].
  inversion H. auto.
Qed.

(** A name without hyphen is read back from the key as it is, and so is
    the category when it has none; a category with a hyphen is not. *)
Theorem bill_key_round_trip (e : Expense.t)
  (amounts : list MonthlyTrends.MonthAmount.t) (bill : MonthlyTrends.BillTrend.t) :
  MonthlyTrends.billTrendOf (MonthlyTrends.billKey e) amounts = Some bill ->
  JsText.hyphenFree (Expense.name e) ->
  MonthlyTrends.BillTrend.name bill = Some (Expense.name e)
  /\ (JsText.hyphenFree (categoryNameOf e) ->
      MonthlyTrends.BillTrend.category bill = Some (categoryNameOf e))
  /\ (~ JsText.hyphenFree (categoryNameOf e) ->
      MonthlyTrends.BillTrend.category bill <> Some (categoryNameOf e)).
Proof.
  intros Hb Hn. unfold MonthlyTrends.billTrendOf in Hb.
  destruct (2 <=? Js.len amounts)%Z; [|discriminate].
  injection Hb as <-. simpl.
  rewrite billKey_shape, (split_at_first_sep "-" _ _ Hn). simpl.
  split; [reflexivity|]. split.
  - intro Hc. rewrite (split_sep_free "-" _ Hc). reflexivity.
  - intros Hc E. apply Hc.
    destruct (Js.split "-" (categoryNameOf e)) as [|p ps] eqn:S; [discriminate|].
    simpl in E. injection E as ->.
    apply (split_pieces_sep_free "-" (categoryNameOf e)).
    rewrite S. left. reflexivity.
Qed.

Lemma bill_key_round_trip_witness :
  let rent := Expense.mk "Rent" 900 (Date.mk 2024 1 1)
                (Some (Category.mk "Housing" "home" "#111111")) in
  let amounts := [MonthlyTrends.MonthAmount.mk "Jan 24" 900;
                  MonthlyTrends.MonthAmount.mk "Feb 24" 900] in
  exists bill,
    MonthlyTrends.billTrendOf (MonthlyTrends.billKey rent) amounts = Some bill
    /\ MonthlyTrends.BillTrend.name bill = Some "Rent"%string
    /\ MonthlyTrends.BillTrend.category bill = Some "Housing"%string.
Proof.
  intros rent amounts. eexists. split; [reflexivity|].
  destruct (bill_key_round_trip rent amounts _ eq_refl) as (Hn & Hc & _).
  - unfold JsText.hyphenFree. simpl. intuition discriminate.
  - split; [exact Hn|]. apply Hc.
    unfold JsText.hyphenFree. simpl. intuition discriminate.
Defined.

(** Bills whose names have no hyphen are kept apart: equal keys mean equal
    names and equal categories.  With a hyphen in a name two different
    bills can share one key and are then merged into one series. *)
Theorem bill_keys_distinguish_plain_names (e1 e2 : Expense.t) :
  (JsText.hyphenFree (Expense.name e1) ->
   JsText.hyphenFree (Expense.name e2) ->
   MonthlyTrends.billKey e1 = MonthlyTrends.billKey e2 ->
   Expense.name e1 = Expense.name e2 /\ categoryNameOf e1 = categoryNameOf e2)
  /\ (exists a b,
        Expense.name a <> Expense.name b
        /\ categoryNameOf a <> categoryNameOf b
        /\ MonthlyTrends.billKey a = MonthlyTrends.billKey b
        /\ length (fst (MonthlyTrends.grouped [a; b])) = 1%nat).
Proof.
  split.
  - intros H1 H2 K.
    assert (S : Js.split "-" (MonthlyTrends.billKey e1)
                = Js.split "-" (MonthlyTrends.billKey e2)) by (rewrite K; reflexivity).
    rewrite !billKey_shape in S.
    rewrite (split_at_first_sep "-" _ _ H1), (split_at_first_sep "-" _ _ H2) in S.
    injection S as Hn _. split; [exact Hn|].
    rewrite !billKey_shape, Hn in K. apply append_cancel_l in K.
    injection K as K. exact K.
  - exists (Expense.mk "T-Mobile" 40 (Date.mk 2024 1 5)
              (Some (Category.mk "Phone" "p" "#1"))),
           (Expense.mk "T" 15 (Date.mk 2024 1 9)
              (Some (Category.mk "Mobile-Phone" "p" "#2"))).
    repeat split; try discriminate; reflexivity.
Qed.

Lemma bill_keys_distinguish_plain_names_witness :
  let gym := Expense.mk "Gym" 30 (Date.mk 2024 1 3)
               (Some (Category.mk "Health" "h" "#1")) in
  let gym' := Expense.mk "Gym" 35 (Date.mk 2024 1 17)
                (Some (Category.mk "Health" "h" "#1")) in
  Expense.name gym = Expense.name gym' /\ categoryNameOf gym = categoryNameOf gym'.
Proof.
  intros gym gym'.
  apply (proj1 (bill_keys_distinguish_plain_names gym gym')).
  - unfold JsText.hyphenFree. simpl. intuition discriminate.
  - unfold JsText.hyphenFree. simpl. intuition discriminate.
  - reflexivity.
Defined.

(** ** Monthly totals *)

Section MonthlyTotals.
Import MonthlyChart.




End MonthlyTotals.



(** ** Counting transactions *)

Lemma pattern_rows (expenses : list Expense.t)
  (p : SpendingHabits.Pattern.t) :
  In p (SpendingHabits.patterns (SpendingHabits.analyzeSpendingHabits expenses)) ->
  SpendingHabits.Pattern.frequency p
  = length (SpendingHabits.rowsOf (SpendingHabits.Pattern.category p) expenses)
  /\ SpendingHabits.rowsOf (SpendingHabits.Pattern.category p) expenses <> [].
Proof.
  intro Hp. apply patterns_In in Hp. destruct Hp as (g & Hin & Hp).
  apply grouped_In in Hin. destruct Hin as [Hg Hne].
  rewrite Hp. unfold SpendingHabits.patternOf. simpl. rewrite Hg. auto.
Qed.

Lemma sumBy_count {A : Type} (f : A -> nat) (l : list A) :
  Js.sumBy (fun x => inject_Z (Z.of_nat (f x))) l
  == inject_Z (Z.of_nat (list_sum (map f l))).
Proof.
  induction l as [|x l IH]; simpl.
  - reflexivity.
  - rewrite sumBy_cons, IH, Nat2Z.inj_add, inject_Z_plus. reflexivity.
Qed.


Lemma grouped_count (expenses : list Expense.t) :
  list_sum (map (fun en => length (SpendingHabits.Group.expenses (snd en)))
                (snd (SpendingHabits.grouped expenses)))
  = length expenses.
Proof.
  apply Nat2Z.inj, inject_Z_injective.
  rewrite <- (sumBy_count (fun en => length (SpendingHabits.Group.expenses (snd en)))).
  induction expenses as [|e es IH] using rev_ind.
  - reflexivity.
  - rewrite grouped_snoc. destruct (SpendingHabits.grouped es) as [t m].
    rewrite collect_set. simpl in *.
    rewrite (sumBy_set (fun g => inject_Z (Z.of_nat (length (SpendingHabits.Group.expenses g))))).
    rewrite IH, !length_app. simpl.
    destruct (JsMap.get (categoryNameOf e) m) as [g|]; simpl.
    + rewrite length_app, !Nat2Z.inj_add, !inject_Z_plus. simpl. ring.
    + rewrite !Nat2Z.inj_add, !inject_Z_plus. simpl. ring.
Qed.

(** Every expense is counted in exactly one card: the transaction counts
    of the categories add up to the number of expenses, and each card
    counts at least one. *)
Theorem frequencies_count_every_expense (expenses : list Expense.t) :
  let cards := SpendingHabits.patterns (SpendingHabits.analyzeSpendingHabits expenses) in
  list_sum (map SpendingHabits.Pattern.frequency cards) = length expenses
  /\ Forall (fun p => (1 <= SpendingHabits.Pattern.frequency p)%nat) cards
  /\ (length cards <= length expenses)%nat.
Proof.
  intro cards.
  assert (Hpos : Forall (fun p => (1 <= SpendingHabits.Pattern.frequency p)%nat) cards).
  { apply Forall_forall. intros p Hp.
    destruct (pattern_rows expenses p Hp) as (Hf & Hne).
    rewrite Hf. destruct (SpendingHabits.rowsOf _ expenses); [congruence | simpl; lia]. }
  assert (Hsum : list_sum (map SpendingHabits.Pattern.frequency cards) = length expenses).
  { subst cards. destruct expenses as [|e es]; [reflexivity|].
    rewrite analyzeSpendingHabits_unfold by discriminate.
    simpl SpendingHabits.patterns.
    rewrite <- (grouped_count (e :: es)).
    set (m := snd (SpendingHabits.grouped (e :: es))).
    assert (P : Permutation
                  (map SpendingHabits.Pattern.frequency
                     (Js.sort (fun a b => SpendingHabits.Pattern.totalSpent b
                                          - SpendingHabits.Pattern.totalSpent a)
                              (map SpendingHabits.patternOfEntry m)))
                  (map (fun en => length (SpendingHabits.Group.expenses (snd en))) m)).
    { eapply perm_trans; [apply Permutation_map, sort_perm|].
      rewrite map_map. apply Permutation_refl. }
    clear -P. revert P. generalize (map SpendingHabits.Pattern.frequency
                     (Js.sort (fun a b => SpendingHabits.Pattern.totalSpent b
                                          - SpendingHabits.Pattern.totalSpent a)
                              (map SpendingHabits.patternOfEntry m))).
    generalize (map (fun en => length (SpendingHabits.Group.expenses (snd en))) m).
    intros l1 l2 P. induction P; simpl; lia. }
  split; [exact Hsum|]. split; [exact Hpos|].
  rewrite <- Hsum. clear Hsum.
  induction Hpos as [|p l Hp _ IH]; simpl; lia.
Qed.

(** ** Shares of the total *)




(** ** Reading a trend *)






(** ** The halves *)

(** With two rows or more the two halves of a category split its rows: the
    newer half followed by the older half is the whole list, and the newer
    half has as many rows as the older one or one more.  With a single row
    both halves are that row. *)
Theorem habits_halves_split (categoryExpenses : list Expense.t) :
  let older := SpendingHabits.firstHalf categoryExpenses in
  let newer := SpendingHabits.secondHalf categoryExpenses in
  ((2 <= length categoryExpenses)%nat ->
   (newer ++ older = categoryExpenses
    /\ length older = (length categoryExpenses / 2)%nat
    /\ (length older <= length newer <= length older + 1)%nat))
  /\ (length categoryExpenses = 1%nat ->
      older = categoryExpenses /\ newer = categoryExpenses).
Proof.
  intros older newer. split.
  - intro Hn. subst older newer.
    rewrite (firstHalf_oldest _ Hn), secondHalf_newest.
    set (n := length categoryExpenses) in *.
    pose proof (half_le n) as Hle.
    assert (Hmod : (n = 2 * (n / 2) + n mod 2)%nat) by (apply Nat.div_mod_eq).
    assert (Hlt : (n mod 2 < 2)%nat) by (apply Nat.mod_upper_bound; lia).
    split; [apply firstn_skipn|].
    rewrite length_skipn, length_firstn. fold n. lia.
  - intro H1. apply halves_single. exact H1.
Qed.

(** The monthly series are split without overlap in every case: the older
    part followed by the newer part is the series, and the older part has
    the floor of half the entries. *)
Theorem monthly_halves_split (amounts : list MonthlyTrends.MonthAmount.t) :
  MonthlyTrends.firstHalf amounts ++ MonthlyTrends.secondHalf amounts = amounts
  /\ length (MonthlyTrends.firstHalf amounts) = (length amounts / 2)%nat
  /\ (length (MonthlyTrends.firstHalf amounts)
      <= length (MonthlyTrends.secondHalf amounts)
      <= length (MonthlyTrends.firstHalf amounts) + 1)%nat.
Proof.
  rewrite firstHalf_nat, secondHalf_nat.
  set (n := length amounts) in *.
  pose proof (half_le n) as Hle.
  assert (Hmod : (n = 2 * (n / 2) + n mod 2)%nat) by (apply Nat.div_mod_eq).
  assert (Hlt : (n mod 2 < 2)%nat) by (apply Nat.mod_upper_bound; lia).
  split; [apply firstn_skipn|].
  rewrite length_skipn, length_firstn. fold n. lia.
Qed.

(** ** Trend insights *)







(** ** One bucket only *)




(** ** Monthly normalizer, further *)







(** ** Budget flow *)

Section BudgetFlowFacts.
Variable expensesOf : string -> option (list Expense.t).
Variable incomeData : option (list Income.t).
Variable budgetData : option (list Budget.t).

Let data := BudgetFlow.loadBudgetFlow expensesOf incomeData budgetData.

End BudgetFlowFacts.

(** The "Over" badge of a budget row: with a positive budget it shows
    exactly when more was spent than budgeted; a row without budget never
    shows it and reads 0 %, whatever was spent; and the bar never exceeds
    100. *)
Theorem over_budget_badge (category : BudgetFlow.Row.t) :
  let budgeted := BudgetFlow.Row.budgeted category in
  let spent := BudgetFlow.Row.spent category in
  (0 < budgeted ->
   (BudgetFlow.isOverBudget category = true <-> budgeted < spent)
   /\ (0 <= spent -> 0 <= BudgetFlow.barValue category))
  /\ (budgeted <= 0 ->
      BudgetFlow.isOverBudget category = false
      /\ BudgetFlow.percentage category = 0
      /\ BudgetFlow.barValue category = 0)
  /\ BudgetFlow.barValue category <= 100.
Proof.
  intros budgeted spent.
  unfold BudgetFlow.isOverBudget, BudgetFlow.barValue, BudgetFlow.percentage, JsText.min.
  fold budgeted spent. repeat split.
  - apply gtb_true in H. rewrite H. intro G. apply gtb_true in G.
    apply gtb_true in H.
    assert (Hne : ~ budgeted == 0) by (intro E; rewrite E in H; discriminate H).
    setoid_replace 100 with (budgeted * (100 / budgeted)) in G at 1 by (field; exact Hne).
    setoid_replace (spent / budgeted * 100) with (spent * (100 / budgeted)) in G
      by (field; exact Hne).
    apply Qmult_lt_r in G; [exact G|].
    apply Qlt_shift_div_l; [exact H | rewrite Qmult_0_l; reflexivity].
  - pose proof H as H'. apply gtb_true in H. rewrite H. intro G. apply gtb_true.
    assert (Hne : ~ budgeted == 0) by (intro E; rewrite E in H'; discriminate H').
    setoid_replace 100 with (budgeted * (100 / budgeted)) at 1 by (field; exact Hne).
    setoid_replace (spent / budgeted * 100) with (spent * (100 / budgeted))
      by (field; exact Hne).
    apply Qmult_lt_r; [|exact G].
    apply Qlt_shift_div_l; [exact H' | rewrite Qmult_0_l; reflexivity].
  - intro Hs. pose proof H as H'. apply gtb_true in H. rewrite H.
    assert (P : 0 <= spent / budgeted * 100).
    { apply Qmult_le_0_compat; [|discriminate].
      apply Qle_shift_div_l; [exact H' | rewrite Qmult_0_l; exact Hs]. }
    destruct (Qle_bool (spent / budgeted * 100) 100); [exact P | discriminate].
  - apply gtb_false in H. rewrite H. reflexivity.
  - apply gtb_false in H. rewrite H. reflexivity.
  - apply gtb_false in H. rewrite H. reflexivity.
  - destruct (Qle_bool _ 100) eqn:E; [apply Qle_bool_iff; exact E | apply Qle_refl].
Qed.

Lemma over_budget_badge_witness :
  BudgetFlow.isOverBudget (BudgetFlow.Row.mk "Unplanned" 0 250) = false.
Proof.
  apply (over_budget_badge (BudgetFlow.Row.mk "Unplanned" 0 250)).
  apply Qle_refl.
Defined.

(** ** Dashboard *)

(** The month before: for a month number from 1 to 12 the pair of previous
    year and previous month is the calendar predecessor, and the month
    stays between 1 and 12. *)
Theorem previous_month_is_predecessor (currentYear currentMonth : Z) :
  (1 <= currentMonth <= 12)%Z ->
  (1 <= Dashboard.prevMonth currentMonth <= 12)%Z
  /\ (Dashboard.prevYear currentYear currentMonth * 12 + Dashboard.prevMonth currentMonth
      = currentYear * 12 + currentMonth - 1)%Z
  /\ (currentYear - 1 <= Dashboard.prevYear currentYear currentMonth <= currentYear)%Z.
Proof.
  intro H. unfold Dashboard.prevMonth, Dashboard.prevYear.
  destruct (Z.eqb_spec currentMonth 1); lia.
Qed.

Lemma previous_month_is_predecessor_witness :
  (Dashboard.prevYear 2025 1 * 12 + Dashboard.prevMonth 1 = 2025 * 12 + 1 - 1)%Z.
Proof.
  apply (previous_month_is_predecessor 2025 1). lia.
Defined.

Lemma digits_inj (n n' : N) : Js.digits n = Js.digits n' -> n = n'.
Proof.
  unfold Js.digits. intro H.
  apply DecimalN.Unsigned.to_uint_inj.
  apply (f_equal NilEmpty.uint_of_string) in H.
  rewrite !NilEmpty.usu in H. congruence.
Qed.

Lemma ofInt_inj_nonneg (a b : Z) :
  (0 <= a)%Z -> (0 <= b)%Z -> JsText.ofInt a = JsText.ofInt b -> a = b.
Proof.
  intros Ha Hb. unfold JsText.ofInt.
  destruct (Z.ltb_spec a 0); [lia|]. destruct (Z.ltb_spec b 0); [lia|].
  intro E. apply digits_inj in E. lia.
Qed.

(** The two windows of dates the dashboard asks for.  From February to
    December the window of the previous month ends where the window of the
    current month begins.  In January it does not: its lower bound is the
    first of December of the year before, and its upper bound is the first
    of January of that same year before, not of the current year. *)
Theorem dashboard_windows (currentYear currentMonth : Z) :
  ((2 <= currentMonth <= 12)%Z ->
   Dashboard.previousWindow currentYear currentMonth
   = (Dashboard.firstOf currentYear (currentMonth - 1),
      Dashboard.firstOf currentYear currentMonth)
   /\ snd (Dashboard.previousWindow currentYear currentMonth)
      = fst (Dashboard.currentWindow currentYear currentMonth))
  /\ ((1 <= currentYear)%Z ->
      Dashboard.previousWindow currentYear 1
      = (Dashboard.firstOf (currentYear - 1) 12, Dashboard.firstOf (currentYear - 1) 1)
      /\ snd (Dashboard.previousWindow currentYear 1)
         <> fst (Dashboard.currentWindow currentYear 1)).
Proof.
  split.
  - intro H. unfold Dashboard.previousWindow, Dashboard.currentWindow,
      Dashboard.prevMonth, Dashboard.prevYear.
    destruct (Z.eqb_spec currentMonth 1); [lia|]. split; reflexivity.
  - intro H. split; [reflexivity|].
    unfold Dashboard.previousWindow, Dashboard.currentWindow. simpl.
    unfold Dashboard.firstOf. intro E.
    apply (append_cancel_r _ _ ("-" ++ JsText.padStart2 (JsText.ofInt 1) ++ "-01")) in E.
    change (Dashboard.prevYear currentYear 1) with (currentYear - 1)%Z in E.
    apply ofInt_inj_nonneg in E; lia.
Qed.

Lemma dashboard_windows_witness :
  Dashboard.previousWindow 2025 1 = ("2024-12-01"%string, "2024-01-01"%string)
  /\ Dashboard.previousWindow 2025 3 = ("2025-02-01"%string, "2025-03-01"%string).
Proof.
  split.
  - apply (proj2 (dashboard_windows 2025 1)). lia.
  - apply (proj1 (dashboard_windows 2025 3)). lia.
Defined.

Section DashboardFacts.
Variable budgetsOf : Z -> Z -> option (list Budget.t).
Variable expensesBetween : string -> string -> option (list Expense.t).
Variables currentYear currentMonth : Z.


End DashboardFacts.


(** ** Local sign-in *)

Lemma getItem_removeItem (k k' : string) (s : LocalStorage.t) :
  LocalStorage.getItem k (LocalStorage.removeItem k' s)
  = if String.eqb k k' then None else LocalStorage.getItem k s.
Proof.
  unfold LocalStorage.getItem.
  induction s as [|[k0 v0] s IH]; simpl.
  - destruct (String.eqb k k'); reflexivity.
  - destruct (String.eqb_spec k' k0) as [->|Hk'].
    + rewrite IH. destruct (String.eqb k k0); reflexivity.
    + simpl. rewrite IH.
      destruct (String.eqb_spec k k0) as [->|Hk]; [|reflexivity].
      apply String.eqb_neq in Hk'. rewrite String.eqb_sym, Hk'. reflexivity.
Qed.

Lemma getItem_setItem (k k' v : string) (s : LocalStorage.t) :
  LocalStorage.getItem k (LocalStorage.setItem k' v s)
  = if String.eqb k k' then Some v else LocalStorage.getItem k s.
Proof. apply get_set. Qed.

(** The invariant of the provider: the flag says what the storage says. *)
Lemma auth_agrees_mount (s : LocalStorage.t) :
  Auth.isAuthenticated (Auth.mount s) = true
  <-> LocalStorage.getItem Auth.authKey (Auth.storage (Auth.mount s))
      = Some "authenticated"%string.
Proof.
  unfold Auth.mount. simpl.
  destruct (LocalStorage.getItem Auth.authKey s) as [v|]; [|split; discriminate].
  split.
  - intro H. apply String.eqb_eq in H. congruence.
  - intro H. injection H as ->. reflexivity.
Qed.

Lemma auth_agrees_step (st : Auth.State) (a : Auth.Action) :
  (Auth.isAuthenticated st = true
   <-> LocalStorage.getItem Auth.authKey (Auth.storage st) = Some "authenticated"%string) ->
  (Auth.isAuthenticated (Auth.step st a) = true
   <-> LocalStorage.getItem Auth.authKey (Auth.storage (Auth.step st a))
       = Some "authenticated"%string).
Proof.
  intro H. destruct a as [u p| |]; simpl.
  - unfold Auth.login.
    destruct (String.eqb u "admin" && String.eqb p "admin")%bool; simpl; [|exact H].
    rewrite getItem_setItem, String.eqb_refl. split; reflexivity.
  - rewrite getItem_removeItem, String.eqb_refl. split; discriminate.
  - apply auth_agrees_mount.
Qed.

(** Whatever the browser storage holds at the start and whatever sequence
    of sign-ins, sign-outs and page reloads follows, the provider reports
    a signed-in user exactly when the storage holds the value
    "authenticated" under its key. *)
Theorem auth_flag_matches_storage (s : LocalStorage.t) (actions : list Auth.Action) :
  let st := Auth.run s actions in
  Auth.isAuthenticated st = true
  <-> LocalStorage.getItem Auth.authKey (Auth.storage st) = Some "authenticated"%string.
Proof.
  unfold Auth.run.
  induction actions as [|a actions IH] using rev_ind.
  - apply auth_agrees_mount.
  - rewrite fold_left_app. simpl. apply auth_agrees_step. exact IH.
Qed.

(** Signing in works with the fixed pair admin / admin and with nothing
    else; a refused attempt changes nothing; an accepted one survives a
    reload of the page; signing out does not, and it leaves every other key
    of the storage as it was. *)
Theorem login_logout_behaviour (username password : string) (st : Auth.State) :
  (fst (Auth.login username password st) = true
   <-> username = "admin"%string /\ password = "admin"%string)
  /\ (fst (Auth.login username password st) = false ->
      snd (Auth.login username password st) = st)
  /\ (fst (Auth.login username password st) = true ->
      Auth.isAuthenticated
        (Auth.mount (Auth.storage (snd (Auth.login username password st)))) = true)
  /\ Auth.isAuthenticated (Auth.mount (Auth.storage (Auth.logout st))) = false
  /\ (forall k, k <> Auth.authKey ->
        LocalStorage.getItem k (Auth.storage (Auth.logout st))
        = LocalStorage.getItem k (Auth.storage st)
        /\ LocalStorage.getItem k (Auth.storage (snd (Auth.login username password st)))
           = LocalStorage.getItem k (Auth.storage st)).
Proof.
  unfold Auth.login.
  destruct (String.eqb_spec username "admin") as [->|Hu];
    destruct (String.eqb_spec password "admin") as [->|Hp]; simpl.
  all: split; [split; [try discriminate; auto | intros [? ?]; congruence || reflexivity]|].
  all: split; [try discriminate; auto|].
  all: split; [try discriminate; intros _; unfold Auth.mount; simpl;
               rewrite ?getItem_setItem, ?String.eqb_refl; reflexivity|].
  all: split; [unfold Auth.mount; simpl;
               rewrite getItem_removeItem, String.eqb_refl; reflexivity|].
  all: intros k Hk; apply String.eqb_neq in Hk;
    rewrite getItem_removeItem, ?getItem_setItem, Hk; split; reflexivity.
Qed.

(** ** Password dialog *)

Lemma storedPassword_setItem (p : string) (s : LocalStorage.t) :
  p <> ""%string ->
  AccountSettings.storedPassword (LocalStorage.setItem AccountSettings.passwordKey p s) = p.
Proof.
  intro H. unfold AccountSettings.storedPassword.
  rewrite getItem_setItem, String.eqb_refl.
  apply String.eqb_neq in H. rewrite H. reflexivity.
Qed.


(** The password in force never has fewer than 4 characters: starting from
    a storage where it has at least 4 (an empty storage, where it is
    "admin", is one), it still has after any attempt. *)
Theorem password_length_kept (current new confirm : string) (s : LocalStorage.t) :
  (4 <= String.length (AccountSettings.storedPassword s))%nat ->
  (4 <= String.length
          (AccountSettings.storedPassword
             (snd (AccountSettings.handlePasswordChange current new confirm s))))%nat.
Proof.
  intro H. unfold AccountSettings.handlePasswordChange.
  destruct (negb (String.eqb current (AccountSettings.storedPassword s))); [exact H|].
  destruct (Nat.ltb_spec (String.length new) 4) as [Hl|Hl]; [exact H|].
  destruct (negb (String.eqb new confirm)); [exact H|]. simpl.
  rewrite storedPassword_setItem; [exact Hl|].
  intro E. rewrite E in Hl. simpl in Hl. lia.
Qed.

Lemma password_length_kept_witness :
  (4 <= String.length
          (AccountSettings.storedPassword
             (snd (AccountSettings.handlePasswordChange "admin" "hunter2" "hunter2" []))))%nat.
Proof.
  apply (password_length_kept "admin" "hunter2" "hunter2" []). simpl. lia.
Defined.

(** Signing in does not look at the stored password: its answer is the
    same on every storage, so after a change of password the old pair
    admin / admin still signs in and the new password does not. *)
Theorem login_ignores_stored_password (current new confirm username password : string)
  (st : Auth.State) :
  let changed := snd (AccountSettings.handlePasswordChange current new confirm
                        (Auth.storage st)) in
  fst (Auth.login username password (Auth.mkState (Auth.isAuthenticated st) changed))
  = fst (Auth.login username password st)
  /\ fst (Auth.login "admin" "admin" (Auth.mkState (Auth.isAuthenticated st) changed))
     = true
  /\ (new <> "admin"%string ->
      fst (Auth.login "admin" new (Auth.mkState (Auth.isAuthenticated st) changed))
      = false).
Proof.
  intro changed. unfold Auth.login.
  split; [|split].
  - destruct (String.eqb username "admin" && String.eqb password "admin")%bool;
      reflexivity.
  - reflexivity.
  - intro H. apply String.eqb_neq in H. simpl. rewrite H. reflexivity.
Qed.

Lemma login_ignores_stored_password_witness :
  fst (Auth.login "admin" "hunter2"
         (Auth.mkState false
            (snd (AccountSettings.handlePasswordChange "admin" "hunter2" "hunter2" []))))
  = false.
Proof.
  apply (login_ignores_stored_password "admin" "hunter2" "hunter2" "admin" "admin"
           (Auth.mkState false [])).
  discriminate.
Defined.

(** ** Utilization against the labels *)

Lemma ratio_over_100 (part whole : Q) :
  0 < whole -> (100 < part / whole * 100 <-> whole < part).
Proof.
  intro H.
  assert (Hne : ~ whole == 0) by (intro E; rewrite E in H; discriminate H).
  assert (Hk : 0 < 100 / whole).
  { apply Qlt_shift_div_l; [exact H | rewrite Qmult_0_l; reflexivity]. }
  setoid_replace 100 with (whole * (100 / whole)) at 1 by (field; exact Hne).
  setoid_replace (part / whole * 100) with (part * (100 / whole)) by (field; exact Hne).
  apply Qmult_lt_r. exact Hk.
Qed.

Section UtilizationFacts.
Variable expensesOf : string -> option (list Expense.t).
Variable incomeData : option (list Income.t).
Variable budgetData : option (list Budget.t).

Let data := BudgetFlow.loadBudgetFlow expensesOf incomeData budgetData.

(** The two utilization figures agree with the labels beside them: with a
    positive income the share of income budgeted is above 100 % exactly
    when the unallocated amount is negative ("Over-budgeted"), and with a
    positive budget the share of budget spent is above 100 % exactly when
    the remaining amount is negative ("Over budget"); without income, or
    without budget, the figure is 0. *)
Theorem utilization_agrees_with_labels :
  (0 < BudgetFlow.totalIncome data ->
   (100 < BudgetFlow.incomeUtilization data <-> BudgetFlow.unallocated data < 0))
  /\ (0 < BudgetFlow.totalBudgeted data ->
      (100 < BudgetFlow.budgetUtilization data <-> BudgetFlow.remaining data < 0))
  /\ (BudgetFlow.totalIncome data <= 0 -> BudgetFlow.incomeUtilization data = 0)
  /\ (BudgetFlow.totalBudgeted data <= 0 -> BudgetFlow.budgetUtilization data = 0).
Proof.
  unfold BudgetFlow.incomeUtilization, BudgetFlow.budgetUtilization.
  unfold data, BudgetFlow.loadBudgetFlow.
  cbn [BudgetFlow.totalIncome BudgetFlow.totalBudgeted BudgetFlow.totalSpent
       BudgetFlow.unallocated BudgetFlow.remaining].
  set (income := Js.sumBy _ (BudgetFlow.orEmpty incomeData)).
  set (budgeted := Js.sumBy Budget.budgeted_amount (BudgetFlow.orEmpty budgetData)).
  set (spent := Js.sumBy BudgetFlow.Row.spent _).
  assert (Neg : forall x y, x - y < 0 <-> x < y).
  { intros x y. split; intro H.
    - apply (Qplus_lt_l _ _ (- y)).
      setoid_replace (y + - y) with 0 by ring. exact H.
    - apply (Qplus_lt_l _ _ y).
      setoid_replace (x - y + y) with x by ring.
      setoid_replace (0 + y) with y by ring. exact H. }
  split; [|split; [|split]].
  - intro H. pose proof H as G. apply gtb_true in G. rewrite G.
    rewrite (ratio_over_100 _ _ H). symmetry. apply Neg.
  - intro H. pose proof H as G. apply gtb_true in G. rewrite G.
    rewrite (ratio_over_100 _ _ H). symmetry. apply Neg.
  - intro H. apply gtb_false in H. rewrite H. reflexivity.
  - intro H. apply gtb_false in H. rewrite H. reflexivity.
Qed.
End UtilizationFacts.

Lemma utilization_agrees_with_labels_witness :
  let expensesOf (_ : string) := Some [Expense.mk "market" 350 (Date.mk 2025 3 2) None] in
  let data := BudgetFlow.loadBudgetFlow expensesOf
                (Some [Income.mk 1000 "monthly"])
                (Some [Budget.mk "b1" "Food" 300 None]) in
  100 < BudgetFlow.budgetUtilization data.
Proof.
  intros expensesOf data.
  apply (utilization_agrees_with_labels expensesOf
           (Some [Income.mk 1000 "monthly"]) (Some [Budget.mk "b1" "Food" 300 None]));
    reflexivity.
Defined.
